(** * dns-lookup: the DoH normalisation layer, the two API handlers and the
      URL-fragment helpers of the lookup island, embedded from the TypeScript
      sources and checked against the written specification.

    Conventions of the embedding.
    - A JavaScript string is a [string]: a sequence of code units below 256.
    - The source's numbers are IEEE doubles.  An integer of magnitude up to
      2^53 is held exactly by a double and is a [Z] here; [parseInt] returns a
      [number], which keeps [NaN] apart and names a result beyond 2^53 by the
      integer it was rounded from, without computing the rounding.  A
      statement that prints a number or reads one from a JSON body bounds it
      by 2^53.
    - [undefined] / [null] are [None].
    - An object literal used as a table is a [gmap] of its own properties;
      a property access with a computed key also sees what the object
      inherits from [Object.prototype], which [DoH.getProperty] spells out.
    - An exception is a [Threw] completion; [await] of a rejected promise
      throws, so asynchronous functions return a [Completion] as well.
    - The outside world (network, system resolver, clock, engine) is an [Env]
      that the handlers receive as an argument. *)

From Stdlib Require Import ZArith Lia Ascii String.
From stdpp Require Import base option list gmap strings pretty.

Local Open Scope Z_scope.
Local Open Scope string_scope.

(* ===================================================================== *)
(** ** JavaScript string and number primitives used by the sources        *)
(* ===================================================================== *)

Module JS.

(** Up to this magnitude, 2^53, every integer is a double. *)
Definition maxExact : Z := 9007199254740992.

(** The result of [parseInt]: [NaN]; or [Num z], an integer that the double
    holds exactly; or [Rounded z], the double that the engine makes of an
    integer [z] of magnitude beyond 2^53 (the nearest double, an infinity
    for a very long digit string).  The embedding names such a double by the
    integer that was written and does not compute it. *)
Inductive number : Type :=
  | NaN
  | Num (z : Z)
  | Rounded (z : Z).

(** The number for the integer that a digit string writes. *)
Definition ofInteger (z : Z) : number :=
  if (Z.abs z <=? maxExact)%Z then Num z else Rounded z.

(** [x || 0] on a number: [NaN] and [0] are falsy; a rounded number is not
    zero. *)
Definition or_zero (x : number) : number :=
  match x with
  | NaN => Num 0
  | Num z => Num z
  | Rounded z => Rounded z
  end.

(** [x || d] on a possibly undefined string: [undefined], [null] and the
    empty string are falsy. *)
Definition or_string (x : option string) (d : string) : string :=
  match x with
  | Some (String c s) => String c s
  | _ => d
  end.

(** Truthiness of a possibly null string, as in [if (!domain)]. *)
Definition truthy (x : option string) : bool :=
  match x with
  | Some (String _ _) => true
  | _ => false
  end.

Definition code (c : ascii) : N := N_of_ascii c.

(** WhiteSpace and LineTerminator code units below 256: TAB, LF, VT, FF, CR,
    SP and NBSP.  This is both [\s] of a regular expression and the set that
    [parseInt] skips at the start of its argument. *)
Definition is_whitespace (c : ascii) : bool :=
  let n := code c in
  ((9 <=? n) && (n <=? 13) || (n =? 32) || (n =? 160))%N.

(** The characters that [.] of a regular expression refuses. *)
Definition is_line_terminator (c : ascii) : bool :=
  let n := code c in ((n =? 10) || (n =? 13))%N.

Definition is_ascii_letter (c : ascii) : bool :=
  let n := code c in
  ((65 <=? n) && (n <=? 90) || (97 <=? n) && (n <=? 122))%N.

Definition to_upper_char (c : ascii) : ascii :=
  let n := code c in
  if ((97 <=? n) && (n <=? 122))%N then ascii_of_N (n - 32) else c.

Definition to_lower_char (c : ascii) : ascii :=
  let n := code c in
  if ((65 <=? n) && (n <=? 90))%N then ascii_of_N (n + 32) else c.

(** [s.toUpperCase()] / [s.toLowerCase()]; the sources and the statements
    below apply them to strings of ASCII letters only, and other characters
    are left as they are. *)
Fixpoint toUpperCase (s : string) : string :=
  match s with
  | "" => ""
  | String c r => String (to_upper_char c) (toUpperCase r)
  end.

Fixpoint toLowerCase (s : string) : string :=
  match s with
  | "" => ""
  | String c r => String (to_lower_char c) (toLowerCase r)
  end.

(** [s.split(sep)] for a one-character separator: the pieces between the
    occurrences of [sep]; the empty string gives one empty piece.  (The
    recursive call never returns the empty list, see [split_not_nil].) *)
Fixpoint split (sep : ascii) (s : string) : list string :=
  match s with
  | "" => [""]
  | String c r =>
      if Ascii.eqb c sep then "" :: split sep r
      else match split sep r with
           | p :: ps => String c p :: ps
           | [] => [String c ""]
           end
  end.

(** [l.join(sep)]. *)
Fixpoint join (sep : string) (l : list string) : string :=
  match l with
  | [] => ""
  | [x] => x
  | x :: xs => x +:+ sep +:+ join sep xs
  end.

(** [l.slice(1)]. *)
Definition slice1 (l : list string) : list string := drop 1 l.

(** [s.replace(/\.$/, empty)]: one dot at the very end of the input is
    removed. *)
Fixpoint strip_trailing_dot (s : string) : string :=
  match s with
  | "" => ""
  | String c "" => if Ascii.eqb c "." then "" else s
  | String c r => String c (strip_trailing_dot r)
  end.

Definition dquote : ascii := "034"%char.

(** Removal of one double quote at the very end of the input. *)
Fixpoint strip_trailing_quote (s : string) : string :=
  match s with
  | "" => ""
  | String c "" => if Ascii.eqb c dquote then "" else s
  | String c r => String c (strip_trailing_quote r)
  end.

(** The global replacement of [^q|q$] (q the double quote) by the empty
    string: a quote at the start is removed, and then a quote at the end of
    what is left of the input. *)
Definition strip_outer_quotes (s : string) : string :=
  match s with
  | String c r => if Ascii.eqb c dquote then strip_trailing_quote r
                  else strip_trailing_quote s
  | "" => ""
  end.

Fixpoint trim_start (s : string) : string :=
  match s with
  | String c r => if is_whitespace c then trim_start r else s
  | "" => ""
  end.

Definition digit (c : ascii) : option Z :=
  let n := code c in
  if ((48 <=? n) && (n <=? 57))%N then Some (Z.of_N (n - 48)) else None.

(** Value of the longest prefix of decimal digits, continuing from [acc]. *)
Fixpoint digits (s : string) (acc : Z) : Z :=
  match s with
  | String c r =>
      match digit c with
      | Some d => digits r (10 * acc + d)
      | None => acc
      end
  | "" => acc
  end.

Definition unsigned_int (s : string) : number :=
  match s with
  | String c r =>
      match digit c with
      | Some d => ofInteger (digits r d)
      | None => NaN
      end
  | "" => NaN
  end.

Definition negate (x : number) : number :=
  match x with
  | NaN => NaN
  | Num z => Num (- z)
  | Rounded z => Rounded (- z)
  end.

(** [parseInt(s, 10)]: leading white space is skipped, one sign is read, the
    longest prefix of decimal digits is the value, as a double; no digit
    gives [NaN]. *)
Definition parseInt (s : string) : number :=
  match trim_start s with
  | String "-" r => negate (unsigned_int r)
  | String "+" r => unsigned_int r
  | t => unsigned_int t
  end.

(** [parseInt(x, 10)] on a possibly undefined array element: the argument is
    first converted to a string, and [undefined] becomes the string
    [undefined], which has no digit. *)
Definition parseInt_at (x : option string) : number :=
  parseInt (default "undefined" x).

(** [n.toString()] and [`${n}`] for an integer of magnitude up to 2^53: a
    double holds it exactly and prints its decimal digits.  (Beyond that the
    engine prints a rounded or an exponent form, which the embedding does not
    compute: the statements that print a number bound it.) *)
Definition toString (n : Z) : string := pretty n.

End JS.

Import JS.

(* ===================================================================== *)
(** ** URLs: the query serialiser and the fragment parser of the platform *)
(* ===================================================================== *)

Module URL.

Definition hex_digit (n : N) : ascii :=
  if (n <? 10)%N then ascii_of_N (48 + n) else ascii_of_N (55 + n).

(** The percent-encoding of one byte, with upper-case digits. *)
Definition percent (b : N) : string :=
  String "%" (String (hex_digit (b / 16)) (String (hex_digit (b mod 16)) "")).

(** UTF-8 of a code unit below 256. *)
Definition utf8 (c : ascii) : list N :=
  let n := code c in
  if (n <? 128)%N then [n] else [192 + n / 64; 128 + n mod 64]%N.

(** Bytes that the form serialiser leaves alone: ASCII alphanumerics and
    [*], [-], [.], [_]. *)
Definition form_safe (b : N) : bool :=
  ((48 <=? b) && (b <=? 57) || (65 <=? b) && (b <=? 90)
   || (97 <=? b) && (b <=? 122)
   || (b =? 42) || (b =? 45) || (b =? 46) || (b =? 95))%N.

Definition form_byte (b : N) : string :=
  if (b =? 32)%N then "+"
  else if form_safe b then String (ascii_of_N b) ""
  else percent b.

Fixpoint form_encode (s : string) : string :=
  match s with
  | "" => ""
  | String c r => join "" (form_byte <$> utf8 c) +:+ form_encode r
  end.

(** A [URLSearchParams] object: its list of name-value pairs. *)
Definition SearchParams : Type := list (string * string).

(** [params.get(name)]: the first value of that name, or [null]. *)
Fixpoint get (name : string) (params : SearchParams) : option string :=
  match params with
  | [] => None
  | (k, v) :: rest => if String.eqb k name then Some v else get name rest
  end.

(** [params.set(name, value)]: the first pair of that name takes the value
    and the others of that name go; without one the pair is appended. *)
Fixpoint set (name value : string) (params : SearchParams) : SearchParams :=
  match params with
  | [] => [(name, value)]
  | (k, v) :: rest =>
      if String.eqb k name
      then (name, value) :: filter (fun kv => negb (String.eqb kv.1 name)) rest
      else (k, v) :: set name value rest
  end.

(** [params.toString()]. *)
Definition serialize (params : SearchParams) : string :=
  join "&" ((fun kv => form_encode kv.1 +:+ "=" +:+ form_encode kv.2) <$> params).

(** The fragment percent-encode set: C0 controls, everything above [~],
    space, the double quote, [<], [>] and the backquote. *)
Definition in_fragment_encode_set (c : ascii) : bool :=
  let n := code c in
  ((n <=? 31) || (126 <? n)
   || (n =? 32) || (n =? 34) || (n =? 60) || (n =? 62) || (n =? 96))%N.

Definition is_c0_or_space (c : ascii) : bool := (code c <=? 32)%N.

Definition is_tab_or_newline (c : ascii) : bool :=
  let n := code c in ((n =? 9) || (n =? 10) || (n =? 13))%N.

(** The URL parser first drops trailing C0 controls and spaces of its input
    and every tab and newline in it. *)
Fixpoint trim_end (s : string) : string :=
  match s with
  | "" => ""
  | String c r =>
      match trim_end r with
      | "" => if is_c0_or_space c then "" else String c ""
      | t => String c t
      end
  end.

Fixpoint remove_tab_newline (s : string) : string :=
  match s with
  | "" => ""
  | String c r =>
      if is_tab_or_newline c then remove_tab_newline r
      else String c (remove_tab_newline r)
  end.

Fixpoint fragment_encode (s : string) : string :=
  match s with
  | "" => ""
  | String c r =>
      (if in_fragment_encode_set c then join "" (percent <$> utf8 c)
       else String c "") +:+ fragment_encode r
  end.

(** The fragment the parser stores for a reference [#f], given [f]. *)
Definition parse_fragment (f : string) : string :=
  fragment_encode (remove_tab_newline (trim_end f)).

End URL.

(* ===================================================================== *)
(** ** Values, completions and the outside world                          *)
(* ===================================================================== *)

(** A thrown value: an [Error] object with its message, or something that is
    not an instance of [Error]. *)
Inductive Thrown : Type :=
  | ErrorObject (message : string)
  | NonError.

Inductive Completion (A : Type) : Type :=
  | Returned (a : A)
  | Threw (t : Thrown).
Arguments Returned {A} a.
Arguments Threw {A} t.

(** The canonical record shapes.  A and AAAA, CNAME, NS and PTR answers are
    strings; a TXT answer is a sequence of strings. *)
Record MxRecord : Type := mkMx {
  preference : number;
  exchange : string
}.

Record SoaRecord : Type := mkSoa {
  mname : string;
  rname : string;
  serial : number;
  refresh : number;
  retry : number;
  expire : number;
  minimum : number
}.

Inductive DnsRecord : Type :=
  | RecString (s : string)
  | RecMX (mx : MxRecord)
  | RecSOA (soa : SoaRecord)
  | RecTXT (segments : list string).

(** One entry of [Answer] or [Authority]. *)
Record AnswerEntry : Type := mkAnswer {
  a_name : string;
  a_type : Z;
  a_TTL : Z;
  a_data : string
}.

Record GoogleDnsResponse : Type := mkDnsResponse {
  Status : Z;
  AD : option bool;
  CD : option bool;
  Answer : option (list AnswerEntry);
  Authority : option (list AnswerEntry)
}.

Record DnssecInfo : Type := mkDnssec {
  validated : bool;
  enabled : bool
}.

Record DoHResult : Type := mkDoHResult {
  records : list DnsRecord;
  dnssec : option DnssecInfo
}.

(** What [fetch(url, {headers})] is asked. *)
Record FetchRequest : Type := mkFetch {
  url : string;
  accept : option string
}.

(** [await response.json()]: the parsed body, or the rejection. *)
Inductive JsonOutcome : Type :=
  | JsonRejected (t : Thrown)
  | JsonData (data : GoogleDnsResponse).

(** [await fetch(...)]: a rejection (network failure), or a response with
    its [ok] flag, its [statusText] and its body. *)
Inductive FetchOutcome : Type :=
  | FetchRejected (t : Thrown)
  | FetchResponse (ok : bool) (statusText : string) (body : JsonOutcome).

(** The [TypeError]s that the engine itself raises; their wording is the
    engine's. *)
Inductive EngineError : Type :=
  | NotAFunction
  | MethodOnUndefined (method : string)
  | PropertyOfUndefined.

Record Env : Type := mkEnv {
  fetch : FetchRequest -> FetchOutcome;
  (** [Deno.resolveDns(domain, type)] *)
  resolveDns : string -> string -> Completion (list DnsRecord);
  (** [Math.round(endTime - startTime)] of the two clock readings *)
  elapsed : Z;
  (** whether [Object.prototype] has the [__proto__] accessor (Deno removes
      it unless it is started with its unsafe-proto flag) *)
  unsafe_proto : bool;
  engine_message : EngineError -> string
}.

(** The JSON body of a response.  A property whose value is [undefined] is
    left out by the serialiser, hence the optional [records]; [resolver] is
    optional because one of the two handlers never writes it. *)
Record SuccessBody : Type := mkSuccess {
  b_domain : string;
  b_recordType : string;
  b_resolver : option string;
  b_records : option (list DnsRecord);
  b_queryTime : Z;
  b_dnssec : option DnssecInfo
}.

Inductive Body : Type :=
  | Failure (error : string)
  | Success (b : SuccessBody).

Record HttpResponse : Type := mkResponse {
  status : Z;
  body : Body
}.

(** [err instanceof Error ? err.message : fallback]. *)
Definition errorMessage (err : Thrown) : string :=
  match err with
  | ErrorObject m => m
  | NonError => "DNS lookup failed"
  end.

(* ===================================================================== *)
(** ** The DoH endpoint: response parsing, adapters and GET handler       *)
(* ===================================================================== *)

Module DoH.

Definition DNS_TYPE_MAP : gmap string Z :=
  list_to_map
    [("A", 1); ("AAAA", 28); ("CNAME", 5); ("MX", 15);
     ("NS", 2); ("TXT", 16); ("SOA", 6); ("PTR", 12)].

(** The MX branch of the answer callback. *)
Definition parseMX (data : string) : MxRecord :=
  let parts := split " " data in
  {| preference := parseInt_at (parts !! 0%nat);
     exchange := strip_trailing_dot (join " " (slice1 parts)) |}.

(** The SOA branch of the answer callback.  [parts[i]?.replace(...)] is
    [undefined] when the element is. *)
Definition parseSOA (data : string) : SoaRecord :=
  let parts := split " " data in
  {| mname := or_string (strip_trailing_dot <$> parts !! 0%nat) "";
     rname := or_string (strip_trailing_dot <$> parts !! 1%nat) "";
     serial := or_zero (parseInt_at (parts !! 2%nat));
     refresh := or_zero (parseInt_at (parts !! 3%nat));
     retry := or_zero (parseInt_at (parts !! 4%nat));
     expire := or_zero (parseInt_at (parts !! 5%nat));
     minimum := or_zero (parseInt_at (parts !! 6%nat)) |}.

(** The callback of [answers.map]: the [switch] on the record type. *)
Definition parseAnswer (type : string) (answer : AnswerEntry) : DnsRecord :=
  if String.eqb type "MX" then RecMX (parseMX (a_data answer))
  else if String.eqb type "SOA" then RecSOA (parseSOA (a_data answer))
  else if String.eqb type "TXT" then RecTXT [strip_outer_quotes (a_data answer)]
  else if String.eqb type "CNAME" || String.eqb type "NS" || String.eqb type "PTR"
  then RecString (strip_trailing_dot (a_data answer))
  else RecString (a_data answer).

(** [typeNum] is [DNS_TYPE_MAP[type]], which is [undefined] for a type
    outside the table; no answer type is strictly equal to [undefined]. *)
Definition parseDoHResponse (data : GoogleDnsResponse) (type : string)
    (typeNum : option Z) (dnssecValidate : bool) : DoHResult :=
  let dnssec :=
    if dnssecValidate
    then Some {| validated := bool_decide (AD data = Some true); enabled := true |}
    else None in
  match Answer data with
  | None => {| records := []; dnssec := dnssec |}
  | Some answer =>
      let answers := filter (fun a => Some (a_type a) = typeNum) answer in
      {| records := parseAnswer type <$> answers; dnssec := dnssec |}
  end.

Definition statusMessages : gmap Z string :=
  list_to_map
    [(1, "Format error"); (2, "Server failure"); (3, "Non-existent domain");
     (4, "Not implemented"); (5, "Query refused")].

(** The error thrown for a body whose [Status] is not 0. *)
Definition statusError (s : Z) : Thrown :=
  ErrorObject (or_string (statusMessages !! s) ("DNS error: " +:+ toString s)).

(** [do=true] asks for DNSSEC data, [cd=true] disables the checking. *)
Definition dnssecParam (dnssecValidate : bool) (params : URL.SearchParams)
    : URL.SearchParams :=
  if dnssecValidate then URL.set "do" "true" params
  else URL.set "cd" "true" params.

(** What both adapters do with the response of [fetch]. *)
Definition readResponse (provider : string) (out : FetchOutcome)
    (type : string) (typeNum : option Z) (dnssecValidate : bool)
    : Completion DoHResult :=
  match out with
  | FetchRejected t => Threw t
  | FetchResponse ok statusText body =>
      if negb ok
      then Threw (ErrorObject (provider +:+ " DNS request failed: " +:+ statusText))
      else match body with
           | JsonRejected t => Threw t
           | JsonData data =>
               if negb (Status data =? 0)%Z then Threw (statusError (Status data))
               else Returned (parseDoHResponse data type typeNum dnssecValidate)
           end
  end.

Definition googleUrl (domain : string) (typeNum : Z) (dnssecValidate : bool)
    : string :=
  "https://dns.google/resolve?" +:+
  URL.serialize
    (dnssecParam dnssecValidate [("name", domain); ("type", toString typeNum)]).

(** [typeNum.toString()] throws when [typeNum] is [undefined].  (The
    adapters are private to the module and the handler calls them with a
    type it has checked against [validTypes], all of them own keys of
    [DNS_TYPE_MAP]; for other strings the table is read by own key only.) *)
Definition resolveWithGoogleDoH (env : Env) (domain type : string)
    (dnssecValidate : bool) : Completion DoHResult :=
  match DNS_TYPE_MAP !! type with
  | None => Threw (ErrorObject (engine_message env PropertyOfUndefined))
  | Some typeNum =>
      readResponse "Google"
        (fetch env {| url := googleUrl domain typeNum dnssecValidate;
                      accept := None |})
        type (Some typeNum) dnssecValidate
  end.

Definition cloudflareUrl (endpoint domain type : string)
    (dnssecValidate : bool) : string :=
  endpoint +:+ "?" +:+
  URL.serialize (dnssecParam dnssecValidate [("name", domain); ("type", type)]).

Definition cloudflareEndpoint : string := "https://cloudflare-dns.com/dns-query".

(** The fourth parameter of the source has [cloudflareEndpoint] as its
    default value. *)
Definition resolveWithCloudflareDoH (endpoint : string) (env : Env)
    (domain type : string) (dnssecValidate : bool) : Completion DoHResult :=
  readResponse "Cloudflare"
    (fetch env {| url := cloudflareUrl endpoint domain type dnssecValidate;
                  accept := Some "application/dns-json" |})
    type (DNS_TYPE_MAP !! type) dnssecValidate.

Definition resolveWithCloudflareSecurityDoH :=
  resolveWithCloudflareDoH "https://security.cloudflare-dns.com/dns-query".

Definition resolveWithCloudflareFamilyDoH :=
  resolveWithCloudflareDoH "https://family.cloudflare-dns.com/dns-query".

Definition resolveWithQuad9DoH :=
  resolveWithCloudflareDoH "https://dns.quad9.net/dns-query".

Definition ResolveFn : Type :=
  Env -> string -> string -> bool -> Completion DoHResult.

(** The own properties of the [resolvers] object literal. *)
Definition resolvers : gmap string ResolveFn :=
  list_to_map
    [("google", resolveWithGoogleDoH);
     ("cloudflare", resolveWithCloudflareDoH cloudflareEndpoint);
     ("cloudflare-security", resolveWithCloudflareSecurityDoH);
     ("cloudflare-family", resolveWithCloudflareFamilyDoH);
     ("quad9", resolveWithQuad9DoH)].

(** The function-valued properties that every object literal inherits from
    [Object.prototype]. *)
Definition objectPrototypeMethods : list string :=
  ["constructor"; "hasOwnProperty"; "isPrototypeOf"; "propertyIsEnumerable";
   "toLocaleString"; "toString"; "valueOf"; "__defineGetter__";
   "__defineSetter__"; "__lookupGetter__"; "__lookupSetter__"].

Definition inheritedKey (env : Env) (key : string) : bool :=
  bool_decide (key ∈ objectPrototypeMethods)
  || unsafe_proto env && String.eqb key "__proto__".

(** The value of [resolvers[key]]: property access goes through the own
    properties and then through the prototype. *)
Inductive Property : Type :=
  | Own (f : ResolveFn)
  | Inherited (key : string)
  | Undefined.

Definition getProperty (env : Env) (key : string) : Property :=
  match resolvers !! key with
  | Some f => Own f
  | None => if inheritedKey env key then Inherited key else Undefined
  end.

(** [resolvers[resolver] ?? resolvers.google]: only [undefined] and [null]
    give way to the right operand. *)
Definition selectResolver (env : Env) (resolver : string) : Property :=
  match getProperty env resolver with
  | Undefined => getProperty env "google"
  | p => p
  end.

(** What [await resolveFn(domain, type, dnssec)] evaluates to: a result of
    an adapter, or a value of another kind. *)
Inductive Awaited : Type :=
  | AdapterResult (r : DoHResult)
  | OtherValue.

(** A plain call of an inherited property, in strict code, where [this] is
    [undefined] and the first argument is a string: [Object] wraps the
    string, [toString] answers for [undefined], [isPrototypeOf] answers
    [false] for a primitive; the other methods convert [this] to an object
    and throw; the object behind [__proto__] is not callable. *)
Definition callInherited (env : Env) (key : string) : Completion Awaited :=
  if bool_decide (key ∈ ["constructor"; "toString"; "isPrototypeOf"])
  then Returned OtherValue
  else if String.eqb key "__proto__"
  then Threw (ErrorObject (engine_message env NotAFunction))
  else Threw (ErrorObject (engine_message env (MethodOnUndefined key))).

Definition call (p : Property) (env : Env) (domain type : string)
    (dnssec : bool) : Completion Awaited :=
  match p with
  | Own f =>
      match f env domain type dnssec with
      | Returned r => Returned (AdapterResult r)
      | Threw t => Threw t
      end
  | Inherited key => callInherited env key
  | Undefined => Threw (ErrorObject (engine_message env NotAFunction))
  end.

(** [const { records, dnssec: dnssecInfo } = ...]: a value of another kind
    has neither property. *)
Definition destructure (v : Awaited)
    : option (list DnsRecord) * option DnssecInfo :=
  match v with
  | AdapterResult r => (Some (records r), dnssec r)
  | OtherValue => (None, None)
  end.

Definition validTypes : list string :=
  ["A"; "AAAA"; "CNAME"; "MX"; "NS"; "TXT"; "SOA"; "PTR"].

(** [url.searchParams.get("resolver") || "system"] and
    [url.searchParams.get("dnssec") === "true"]. *)
Definition requestedResolver (searchParams : URL.SearchParams) : string :=
  or_string (URL.get "resolver" searchParams) "system".

Definition requestedDnssec (searchParams : URL.SearchParams) : bool :=
  bool_decide (URL.get "dnssec" searchParams = Some "true").

(** The end of the [try] block and the [catch] block: the response for the
    completion of [await resolveFn(domain, type, dnssec)].  The spread of
    [dnssecInfo && {dnssec: dnssecInfo}] adds the property only for an
    object. *)
Definition respond (env : Env) (domain type resolver : string)
    (c : Completion Awaited) : HttpResponse :=
  match c with
  | Returned v =>
      let '(records, dnssecInfo) := destructure v in
      {| status := 200;
         body := Success {| b_domain := domain;
                            b_recordType := type;
                            b_resolver := Some resolver;
                            b_records := records;
                            b_queryTime := elapsed env;
                            b_dnssec := dnssecInfo |} |}
  | Threw err => {| status := 500; body := Failure (errorMessage err) |}
  end.

(** The handler, on the query parameters of the request URL. *)
Definition GET (env : Env) (searchParams : URL.SearchParams) : HttpResponse :=
  let domain := URL.get "domain" searchParams in
  let type := URL.get "type" searchParams in
  let resolver := requestedResolver searchParams in
  let dnssec := requestedDnssec searchParams in
  if negb (truthy domain)
  then {| status := 400; body := Failure "Domain is required" |}
  else if negb (truthy type)
  then {| status := 400; body := Failure "Record type is required" |}
  else
    let domain := default "" domain in
    let type := default "" type in
    if negb (bool_decide (type ∈ validTypes))
    then {| status := 400; body := Failure ("Invalid record type: " +:+ type) |}
    else
      let resolveFn := selectResolver env resolver in
      respond env domain type resolver (call resolveFn env domain type dnssec).

End DoH.

(* ===================================================================== *)
(** ** The system-resolver endpoint                                       *)
(* ===================================================================== *)

Module System.

Definition validTypes : list string :=
  ["A"; "AAAA"; "CNAME"; "MX"; "NS"; "TXT"; "SOA"; "PTR"].

Definition GET (env : Env) (searchParams : URL.SearchParams) : HttpResponse :=
  let domain := URL.get "domain" searchParams in
  let type := URL.get "type" searchParams in
  if negb (truthy domain)
  then {| status := 400; body := Failure "Domain is required" |}
  else if negb (truthy type)
  then {| status := 400; body := Failure "Record type is required" |}
  else
    let domain := default "" domain in
    let type := default "" type in
    if negb (bool_decide (type ∈ validTypes))
    then {| status := 400; body := Failure ("Invalid record type: " +:+ type) |}
    else
      match resolveDns env domain type with
      | Returned records =>
          {| status := 200;
             body := Success {| b_domain := domain;
                                b_recordType := type;
                                b_resolver := None;
                                b_records := Some records;
                                b_queryTime := elapsed env;
                                b_dnssec := None |} |}
      | Threw err => {| status := 500; body := Failure (errorMessage err) |}
      end.

End System.

(* ===================================================================== *)
(** ** The lookup island: the shareable URL fragment                      *)
(* ===================================================================== *)

Module Island.

(** [value] and [label] of each entry. *)
Definition RecordTypes : list (string * string) :=
  [("A", "A - IPv4 Address"); ("AAAA", "AAAA - IPv6 Address");
   ("CNAME", "CNAME - Canonical Name"); ("MX", "MX - Mail Exchange");
   ("NS", "NS - Name Server"); ("TXT", "TXT - Text Record");
   ("SOA", "SOA - Start of Authority"); ("PTR", "PTR - Pointer Record")].

Definition ValidRecordTypes : list string := fst <$> RecordTypes.

(** The regular expression of [parseHash] is
    [^#([A-Z]+)\/(.+?)\/?\s*$] with the flag [i]; the functions below are its
    backtracking matcher, piece by piece. *)

(** [[A-Z]+], ignoring case: the longest run of ASCII letters and what
    follows it.  A shorter run is followed by a letter, where the slash
    cannot match, so backtracking into the run never succeeds. *)
Fixpoint spanLetters (s : string) : string * string :=
  match s with
  | String c r =>
      if is_ascii_letter c
      then let '(t, rest) := spanLetters r in (String c t, rest)
      else ("", s)
  | "" => ("", "")
  end.

Fixpoint allWhitespace (s : string) : bool :=
  match s with
  | "" => true
  | String c r => is_whitespace c && allWhitespace r
  end.

(** [\/?\s*$]: an optional slash, then white space up to the end. *)
Definition matchesTail (s : string) : bool :=
  match s with
  | String "/" r => allWhitespace r
  | _ => allWhitespace s
  end.

(** [(.+?)] followed by the tail: the shortest non-empty prefix without a
    line terminator after which the tail matches. *)
Fixpoint matchDomain (s : string) : option string :=
  match s with
  | "" => None
  | String c r =>
      if is_line_terminator c then None
      else if matchesTail r then Some (String c "")
      else String c <$> matchDomain r
  end.

(** [hash.match(...)]: the two groups. *)
Definition matchHash (hash : string) : option (string * string) :=
  match hash with
  | String "#" r =>
      match spanLetters r with
      | (String c t, String "/" d) =>
          match matchDomain d with
          | Some domain => Some (String c t, domain)
          | None => None
          end
      | _ => None
      end
  | _ => None
  end.

Definition parseHash (hash : string) : option (string * string) :=
  match matchHash hash with
  | None => None
  | Some (m1, m2) =>
      let type := toUpperCase m1 in
      let domain := m2 in
      if negb (bool_decide (type ∈ ValidRecordTypes)) then None
      else if negb (truthy (Some domain)) then None
      else Some (type, domain)
  end.

(** [window.location], as far as the island reads and writes it. *)
Record Location : Type := mkLocation {
  pathname : string;
  search : string;
  hash : string
}.

(** The [hash] getter: empty for an empty fragment. *)
Definition hashOf (fragment : string) : string :=
  match fragment with
  | "" => ""
  | _ => "#" +:+ fragment
  end.

(** A reference that starts with a slash followed by a slash or a backslash
    is relative to the scheme alone: the URL parser reads a host after the
    two characters. *)
Definition schemeRelative (url : string) : bool :=
  match url with
  | String "/" (String c _) => Ascii.eqb c "/" || Ascii.eqb c "092"
  | _ => false
  end.

(** [window.history.replaceState(null, empty, url)] for the two kinds of
    reference the island passes.  A fragment-only reference keeps path and
    query.  The other reference is [location.pathname], a path that the URL
    parser has serialised; parsed again as a path it replaces path, query
    and fragment.  A pathname that starts with two slashes is not read as a
    path but as a host and a path: the URL is of another origin than the
    page, the call throws a SecurityError and the location stays as it is.
    The exception ends the handler or the effect that called [updateHash],
    which has no statement after the call. *)
Definition replaceState (url : string) (loc : Location) : Location :=
  match url with
  | String "#" f =>
      {| pathname := pathname loc; search := search loc;
         hash := hashOf (URL.parse_fragment f) |}
  | _ =>
      if schemeRelative url then loc
      else {| pathname := url; search := ""; hash := "" |}
  end.

Definition updateHash (type domain : string) (loc : Location) : Location :=
  if truthy (Some domain)
  then replaceState ("#" +:+ type +:+ "/" +:+ domain) loc
  else replaceState (pathname loc) loc.

End Island.

(* ===================================================================== *)
(** ** The lookup island: the request it sends and the records it shows   *)
(* ===================================================================== *)

Module UI.

(** A value read from a JSON body.  Its numbers are integers of magnitude
    up to 2^53, which the text of the body and the double agree on. *)
#[local] Unset Elimination Schemes.
Inductive Json : Type :=
  | JNull
  | JBool (b : bool)
  | JNum (z : Z)
  | JStr (s : string)
  | JArr (items : list Json)
  | JObj (fields : list (string * Json)).
#[local] Set Elimination Schemes.

(** What [response.json()] gives the island for a record that a handler
    passed to [Response.json]: the serialiser writes [NaN] as [null] and
    keeps the properties in the order the handler wrote them.  A number
    beyond 2^53 is outside the embedding of the island, which gives [None]
    for a record that holds one. *)
Definition numberJson (x : number) : option Json :=
  match x with
  | NaN => Some JNull
  | Num z => if (Z.abs z <=? maxExact)%Z then Some (JNum z) else None
  | Rounded _ => None
  end.

Definition recordJson (r : DnsRecord) : option Json :=
  match r with
  | RecString s => Some (JStr s)
  | RecMX mx =>
      p ← numberJson (preference mx);
      Some (JObj [("preference", p); ("exchange", JStr (exchange mx))])
  | RecSOA soa =>
      se ← numberJson (serial soa);
      rf ← numberJson (refresh soa);
      rt ← numberJson (retry soa);
      ex ← numberJson (expire soa);
      mi ← numberJson (minimum soa);
      Some (JObj [("mname", JStr (mname soa)); ("rname", JStr (rname soa));
                  ("serial", se); ("refresh", rf); ("retry", rt);
                  ("expire", ex); ("minimum", mi)])
  | RecTXT segments => Some (JArr (JStr <$> segments))
  end.

(** The conversion to a string that a template literal and [join] apply.
    In an array, [null] elements give the empty string. *)
Fixpoint toText (j : Json) : string :=
  match j with
  | JNull => "null"
  | JBool true => "true"
  | JBool false => "false"
  | JNum z => toString z
  | JStr s => s
  | JArr items =>
      join ","
        ((fix texts (l : list Json) : list string :=
            match l with
            | [] => []
            | JNull :: r => "" :: texts r
            | x :: r => toText x :: texts r
            end) items)
  | JObj _ => "[object Object]"
  end.

(** The strings that [items.join(sep)] puts together. *)
Definition itemTexts (items : list Json) : list string :=
  (fun x => match x with JNull => "" | _ => toText x end) <$> items.

(** [record.key] for one of the property names that [formatRecord] reads:
    the last property of that name of an object; an array has none of
    them. *)
Fixpoint lookupField (key : string) (fields : list (string * Json))
    : option Json :=
  match fields with
  | [] => None
  | (k, v) :: rest =>
      match lookupField key rest with
      | Some w => Some w
      | None => if String.eqb k key then Some v else None
      end
  end.

Definition field (record : Json) (key : string) : option Json :=
  match record with
  | JObj fields => lookupField key fields
  | _ => None
  end.

(** [`${record.key}`]: a missing property prints as [undefined]. *)
Definition fieldText (record : Json) (key : string) : string :=
  match field record key with
  | Some v => toText v
  | None => "undefined"
  end.

(** [typeof record === "object" && record !== null]: arrays count. *)
Definition isObject (record : Json) : bool :=
  match record with
  | JArr _ | JObj _ => true
  | _ => false
  end.

Definition newline : string := String "010"%char "".

(** [Array.isArray(record)], with the items. *)
Definition arrayItems (record : Json) : option (list Json) :=
  match record with
  | JArr items => Some items
  | _ => None
  end.

(** The two template literals of [formatRecord]. *)
Definition mxText (record : Json) : string :=
  fieldText record "preference" +:+ " " +:+ fieldText record "exchange".

Definition soaText (record : Json) : string :=
  "Primary NS: " +:+ fieldText record "mname" +:+ newline +:+
  "Admin: " +:+ fieldText record "rname" +:+ newline +:+
  "Serial: " +:+ fieldText record "serial" +:+ newline +:+
  "Refresh: " +:+ fieldText record "refresh" +:+ "s" +:+ newline +:+
  "Retry: " +:+ fieldText record "retry" +:+ "s" +:+ newline +:+
  "Expire: " +:+ fieldText record "expire" +:+ "s" +:+ newline +:+
  "Minimum TTL: " +:+ fieldText record "minimum" +:+ "s".

(** [formatRecord(record, type)]; [stringify] is [JSON.stringify] with an
    indentation of two, the platform's. *)
Definition formatRecord (stringify : Json -> string) (record : Json)
    (type : string) : string :=
  match record with
  | JStr s => s
  | _ =>
      match (if String.eqb type "TXT" then arrayItems record else None) with
      | Some items => join "" (itemTexts items)
      | None =>
          if String.eqb type "MX" && isObject record then mxText record
          else if String.eqb type "SOA" && isObject record then soaText record
          else stringify record
      end
  end.

(** [s.trimEnd()] and [s.trim()]. *)
Fixpoint trimEnd (s : string) : string :=
  match s with
  | "" => ""
  | String c r =>
      match trimEnd r with
      | "" => if is_whitespace c then "" else String c ""
      | t => String c t
      end
  end.

Definition trim (s : string) : string := trimEnd (trim_start s).

(** The signals of the component. *)
Record State : Type := mkState {
  domain : string;
  recordType : string;
  resolver : string;
  dnssecValidate : bool;
  isLoading : bool;
  result : option SuccessBody;
  error : option string;
  initialLoadDone : bool
}.

(** [await fetch(url)] followed by [await response.json()], seen from the
    island: a body of one of the handlers, or a rejection of either
    promise. *)
Inductive ApiOutcome : Type :=
  | ApiRejected
  | ApiData (data : Body).

(** The resolvers for which the island sends the [dnssec] parameter. *)
Definition sendsDnssec (resolver : string) : bool :=
  String.eqb resolver "google" || String.eqb resolver "cloudflare"
  || String.eqb resolver "cloudflare-security" || String.eqb resolver "quad9".

(** The URL that [handleLookup] fetches for a trimmed domain. *)
Definition lookupUrl (st : State) (domainValue : string) : string :=
  let params := [("domain", domainValue); ("type", recordType st);
                 ("resolver", resolver st)] in
  let params :=
    if sendsDnssec (resolver st)
    then URL.set "dnssec" (if dnssecValidate st then "true" else "false") params
    else params in
  "/api/dns?" +:+ URL.serialize params.

Definition setOutcome (st : State) (loading : bool)
    (res : option SuccessBody) (err : option string) : State :=
  {| domain := domain st; recordType := recordType st;
     resolver := resolver st; dnssecValidate := dnssecValidate st;
     isLoading := loading; result := res; error := err;
     initialLoadDone := initialLoadDone st |}.

(** [handleLookup], from the state at the call to the state when the
    returned promise settles; [api] answers the request. *)
Definition handleLookup (api : string -> ApiOutcome) (st : State) : State :=
  let domainValue := trim (domain st) in
  if negb (truthy (Some domainValue))
  then setOutcome st (isLoading st) None (Some "Please enter a domain name")
  else
    match api (lookupUrl st domainValue) with
    | ApiData (Failure e) =>
        setOutcome st false None (Some (or_string (Some e) "DNS lookup failed"))
    | ApiData (Success b) => setOutcome st false (Some b) None
    | ApiRejected => setOutcome st false None (Some "Failed to perform DNS lookup")
    end.

(** [handleClear]: the form goes back to its defaults and the fragment is
    cleared. *)
Definition handleClear (st : State) (loc : Island.Location)
    : State * Island.Location :=
  ({| domain := ""; recordType := "A"; resolver := "google";
      dnssecValidate := true; isLoading := isLoading st; result := None;
      error := None; initialLoadDone := initialLoadDone st |},
   Island.updateHash "A" "" loc).

Definition setFields (st : State) (d type : string) (loaded : bool) : State :=
  {| domain := d; recordType := type;
     resolver := resolver st; dnssecValidate := dnssecValidate st;
     isLoading := isLoading st; result := result st; error := error st;
     initialLoadDone := loaded |}.

(** [handleHashChange] of the first effect, for the location it reads, up
    to the end of the lookup that it may start: an accepted fragment fills
    the domain and the type, and starts a lookup if none was started before;
    the flag of the initial load is set in every case. *)
Definition handleHashChange (api : string -> ApiOutcome)
    (loc : Island.Location) (st : State) : State :=
  match Island.parseHash (Island.hash loc) with
  | Some (type, d) =>
      if negb (initialLoadDone st)
      then handleLookup api (setFields st d type true)
      else setFields st d type (initialLoadDone st)
  | None => setFields st (domain st) (recordType st) true
  end.

(** The second effect, which runs when the domain or the type changed:
    after the initial load it writes them to the fragment. *)
Definition syncHash (st : State) (loc : Island.Location) : Island.Location :=
  if initialLoadDone st
  then Island.updateHash (recordType st) (trim (domain st)) loc
  else loc.

End UI.

(* ===================================================================== *)
(** ** The specification's own words, for comparison with the code        *)
(* ===================================================================== *)

Module SpecWords.

(** The registry of supported record types. *)
Definition registry : list string :=
  ["A"; "AAAA"; "CNAME"; "MX"; "NS"; "TXT"; "SOA"; "PTR"].

(** The fixed table of provider status codes. *)
Definition statusMessage (code : Z) : string :=
  match code with
  | 1 => "Format error"
  | 2 => "Server failure"
  | 3 => "Non-existent domain"
  | 4 => "Not implemented"
  | 5 => "Query refused"
  | _ => "DNS error: " +:+ toString code
  end.

(** The known resolver identifiers. *)
Definition knownResolvers : list string :=
  ["google"; "cloudflare"; "cloudflare-security"; "cloudflare-family"; "quad9"].

(** Splitting on white space: every white-space character separates. *)
Fixpoint fields (s : string) : list string :=
  match s with
  | "" => [""]
  | String c r =>
      if is_whitespace c then "" :: fields r
      else match fields r with
           | p :: ps => String c p :: ps
           | [] => [String c ""]
           end
  end.

(** MX: first token the preference, the remaining tokens joined the
    exchange, trailing root dot stripped. *)
Definition parseMX (data : string) : MxRecord :=
  let tokens := fields data in
  {| preference := parseInt_at (tokens !! 0%nat);
     exchange := strip_trailing_dot (join " " (drop 1 tokens)) |}.

(** SOA: seven white-space separated fields, a trailing dot stripped from
    the two names, numeric fields that are not numbers taken as 0. *)
Definition parseSOA (data : string) : SoaRecord :=
  let tokens := fields data in
  {| mname := strip_trailing_dot (default "" (tokens !! 0%nat));
     rname := strip_trailing_dot (default "" (tokens !! 1%nat));
     serial := or_zero (parseInt_at (tokens !! 2%nat));
     refresh := or_zero (parseInt_at (tokens !! 3%nat));
     retry := or_zero (parseInt_at (tokens !! 4%nat));
     expire := or_zero (parseInt_at (tokens !! 5%nat));
     minimum := or_zero (parseInt_at (tokens !! 6%nat)) |}.

(** Whether a character occurs in a string, and whether all do something. *)
Fixpoint contains (c : ascii) (s : string) : bool :=
  match s with
  | "" => false
  | String d r => Ascii.eqb d c || contains c r
  end.

Fixpoint allChars (P : ascii -> bool) (s : string) : bool :=
  match s with
  | "" => true
  | String c r => P c && allChars P r
  end.

Fixpoint lastChar (s : string) : option ascii :=
  match s with
  | "" => None
  | String c "" => Some c
  | String _ r => lastChar r
  end.

(** A field that does not start a number: it is empty, or its first
    character is neither a digit nor a sign nor white space. *)
Definition nonNumeric (f : string) : bool :=
  match f with
  | "" => true
  | String c _ =>
      negb (bool_decide (is_Some (digit c))) && negb (Ascii.eqb c "+")
      && negb (Ascii.eqb c "-") && negb (is_whitespace c)
  end.

(** A field that writes no integer: after its leading white space and one
    optional sign it does not go on with a decimal digit. *)
Definition noInteger (f : string) : bool :=
  let t := trim_start f in
  let unsigned :=
    match t with
    | String c r => if Ascii.eqb c "+" || Ascii.eqb c "-" then r else t
    | "" => ""
    end in
  match unsigned with
  | String c _ => negb (bool_decide (is_Some (digit c)))
  | "" => true
  end.

(** The five numeric fields of an SOA record, in the order of the data. *)
Definition numericFields (r : SoaRecord) : list number :=
  [serial r; refresh r; retry r; expire r; minimum r].

(** A character that the URL parser keeps as it is in a fragment. *)
Definition fragmentSafe (c : ascii) : bool := negb (URL.in_fragment_encode_set c).

Definition tab : string := String "009"%char "".

End SpecWords.

(* ===================================================================== *)
(** ** Concrete inputs used by the examples                               *)
(* ===================================================================== *)

Module Sample.

Definition mxData : string := "10 mail.example.com.".

Definition soaData : string :=
  "ns1.example.com. admin.example.com. 2024010101 3600 600 604800 60".

(** The same answers with a tab where the first space was. *)
Definition mxTabbed : string := "10" +:+ SpecWords.tab +:+ "mail.example.com.".

Definition soaTabbed : string :=
  "ns1.example.com." +:+ SpecWords.tab +:+
  "admin.example.com. 2024010101 3600 600 604800 60".

(** A response body with the given status and AD flag and no [Answer]. *)
Definition noAnswer (st : Z) (ad : option bool) : GoogleDnsResponse :=
  {| Status := st; AD := ad; CD := None; Answer := None; Authority := None |}.

(** A world whose network answers every request with the same body, whose
    system resolver finds nothing, and whose clock measures 3 ms. *)
Definition world (data : GoogleDnsResponse) : Env :=
  {| fetch := fun _ => FetchResponse true "OK" (JsonData data);
     resolveDns := fun _ _ => Returned [];
     elapsed := 3;
     unsafe_proto := false;
     engine_message := fun _ => "TypeError" |}.

Definition query (type resolver dnssec : string) : URL.SearchParams :=
  [("domain", "example.com"); ("type", type);
   ("resolver", resolver); ("dnssec", dnssec)].

Definition location : Island.Location :=
  {| Island.pathname := "/"; Island.search := ""; Island.hash := "" |}.

End Sample.

(* ===================================================================== *)
(** ** What each adapter is expected to ask, for the statements below     *)
(* ===================================================================== *)

Module Expected.

Definition isGoogle (name : string) : bool := String.eqb name "google".

(** The provider named in the message of an HTTP failure. *)
Definition provider (name : string) : string :=
  if isGoogle name then "Google" else "Cloudflare".

Definition endpoint (name : string) : string :=
  if isGoogle name then "https://dns.google/resolve"
  else if String.eqb name "cloudflare" then "https://cloudflare-dns.com/dns-query"
  else if String.eqb name "cloudflare-security"
  then "https://security.cloudflare-dns.com/dns-query"
  else if String.eqb name "cloudflare-family"
  then "https://family.cloudflare-dns.com/dns-query"
  else "https://dns.quad9.net/dns-query".

(** The request of the adapter called [name] for a domain, a record type
    with its numeric code, and the DNSSEC flag: the parameters [name] and
    [type] and then exactly one of [do=true] and [cd=true]. *)
Definition request (name domain type : string) (code : Z)
    (dnssecValidate : bool) : FetchRequest :=
  {| url := endpoint name +:+ "?name=" +:+ URL.form_encode domain +:+
            "&type=" +:+ (if isGoogle name then toString code else type) +:+
            (if dnssecValidate then "&do=true" else "&cd=true");
     accept := if isGoogle name then None else Some "application/dns-json" |}.

(** The key of the table whose adapter serves a resolver identifier that
    does not select an inherited property: the identifier itself when it is
    a key, [google] otherwise. *)
Definition adapterName (resolver : string) : string :=
  if bool_decide (resolver ∈ SpecWords.knownResolvers) then resolver
  else "google".

End Expected.

(** Worlds and requests for the examples of the further properties. *)
Module Scenario.

(** Every request is answered by an HTTP failure. *)
Definition badGateway : Env :=
  {| fetch := fun _ => FetchResponse false "Bad Gateway" (JsonRejected NonError);
     resolveDns := fun _ _ => Returned [];
     elapsed := 40; unsafe_proto := false;
     engine_message := fun _ => "TypeError" |}.

(** The network is down and the system resolver fails. *)
Definition offline : Env :=
  {| fetch := fun _ => FetchRejected (ErrorObject "network unreachable");
     resolveDns := fun _ _ => Threw (ErrorObject "no record found");
     elapsed := 1; unsafe_proto := false;
     engine_message := fun _ => "TypeError" |}.

(** A body with an authenticated A answer behind a CNAME. *)
Definition signedAnswer : GoogleDnsResponse :=
  {| Status := 0; AD := Some true; CD := Some false;
     Answer := Some [mkAnswer "www.example.com." 5 300 "host.example.net.";
                     mkAnswer "host.example.net." 1 60 "192.0.2.7"];
     Authority := None |}.

End Scenario.

(** Predicates on the parts of a fragment, for the statements below. *)
Module Fragment.

(** A character that [.] of the pattern accepts. *)
Definition dotChar (c : ascii) : bool := negb (is_line_terminator c).

(** The last character is neither white space nor a slash. *)
Definition endsDomain (d : string) : bool :=
  match SpecWords.lastChar d with
  | Some x => negb (is_whitespace x) && negb (Ascii.eqb x "/")
  | None => false
  end.

(** A character of a path that the URL parser copies as it is: a letter, a
    digit, a slash, a hyphen, an underscore, a dot or a tilde. *)
Definition pathChar (c : ascii) : bool :=
  let n := code c in
  (is_ascii_letter c || (48 <=? n) && (n <=? 57) || (n =? 47) || (n =? 45)
   || (n =? 95) || (n =? 46) || (n =? 126))%N.

(** A segment that the URL parser removes from a path. *)
Definition dotSegment (s : string) : bool :=
  String.eqb s "." || String.eqb s "..".

(** A path that the URL parser reads back as the same path: it starts with
    one slash that no slash or backslash follows, it is made of the
    characters above, and none of its segments is a dot segment. *)
Definition plainPath (p : string) : bool :=
  match p with
  | String "/" _ =>
      negb (Island.schemeRelative p) && SpecWords.allChars pathChar p
      && forallb (fun s => negb (dotSegment s)) (split "/" p)
  | _ => false
  end.

End Fragment.

(** The texts that the island is expected to show, for the statements
    below. *)
Module Display.

(** A number of a record as the island prints it after the transport:
    [null] for [NaN], the decimal digits for an integer of magnitude up to
    2^53; nothing is stated for a number beyond that. *)
Definition numberText (x : number) : option string :=
  match x with
  | NaN => Some "null"
  | Num z => if (Z.abs z <=? maxExact)%Z then Some (toString z) else None
  | Rounded _ => None
  end.

Definition soaLines (soa : SoaRecord) : option (list string) :=
  se ← numberText (serial soa);
  rf ← numberText (refresh soa);
  rt ← numberText (retry soa);
  ex ← numberText (expire soa);
  mi ← numberText (minimum soa);
  Some ["Primary NS: " +:+ mname soa;
        "Admin: " +:+ rname soa;
        "Serial: " +:+ se;
        "Refresh: " +:+ rf +:+ "s";
        "Retry: " +:+ rt +:+ "s";
        "Expire: " +:+ ex +:+ "s";
        "Minimum TTL: " +:+ mi +:+ "s"].

(** The text for a record of the shape that belongs to its type, when its
    numbers are exact. *)
Definition text (r : DnsRecord) : option string :=
  match r with
  | RecString s => Some s
  | RecMX mx =>
      p ← numberText (preference mx); Some (p +:+ " " +:+ exchange mx)
  | RecSOA soa => join UI.newline <$> soaLines soa
  | RecTXT segments => Some (join "" segments)
  end.

(** The shape of the records of each registry type. *)
Definition hasShape (type : string) (r : DnsRecord) : bool :=
  match r with
  | RecString _ => true
  | RecMX _ => String.eqb type "MX"
  | RecSOA _ => String.eqb type "SOA"
  | RecTXT _ => String.eqb type "TXT"
  end.

End Display.

(* ===================================================================== *)
(** ** Properties of responses that the statements below use              *)
(* ===================================================================== *)

(** What both handlers answer to a request, as far as the checks of the
    query parameters go. *)
Definition validates (GET : Env -> URL.SearchParams -> HttpResponse)
    (env : Env) (sp : URL.SearchParams) : Prop :=
  let domain := URL.get "domain" sp in
  let type := URL.get "type" sp in
  (truthy domain = false ->
   GET env sp = {| status := 400; body := Failure "Domain is required" |})
  /\ (truthy domain = true -> truthy type = false ->
      GET env sp = {| status := 400; body := Failure "Record type is required" |})
  /\ (forall t, truthy domain = true -> type = Some t -> t <> "" ->
        t ∉ SpecWords.registry ->
        GET env sp
        = {| status := 400; body := Failure ("Invalid record type: " +:+ t) |})
  /\ (forall t, truthy domain = true -> type = Some t ->
        t ∈ SpecWords.registry -> status (GET env sp) <> 400)
  /\ (status (GET env sp) = 400 <->
      ~ (truthy domain = true /\ exists t, type = Some t /\ t ∈ SpecWords.registry)).

(** [{success:false, error}] with status 400 or 500. *)
Definition failureShape (r : HttpResponse) : Prop :=
  (status r = 400 \/ status r = 500) /\ exists e, body r = Failure e.

(** [{success:true, domain, recordType, resolver, records, queryTime}] and
    an optional dnssec, with status 200. *)
Definition dohSuccessShape (sp : URL.SearchParams) (r : HttpResponse) : Prop :=
  status r = 200
  /\ exists b, body r = Success b
       /\ URL.get "domain" sp = Some (b_domain b)
       /\ URL.get "type" sp = Some (b_recordType b)
       /\ b_resolver b = Some (DoH.requestedResolver sp)
       /\ is_Some (b_records b).

(** [{success:true, domain, recordType, records, queryTime}]: neither a
    resolver nor a dnssec property, with status 200. *)
Definition systemSuccessShape (sp : URL.SearchParams) (r : HttpResponse) : Prop :=
  status r = 200
  /\ exists b, body r = Success b
       /\ URL.get "domain" sp = Some (b_domain b)
       /\ URL.get "type" sp = Some (b_recordType b)
       /\ b_resolver b = None
       /\ is_Some (b_records b)
       /\ b_dnssec b = None.

(* ===================================================================== *)
(** ** Lemmas on the string primitives                                    *)
(* ===================================================================== *)

Section StringLemmas.

Variable sep : ascii.

Lemma split_not_nil (s : string) : split sep s <> [].
Proof.
  destruct s as [|c r]; simpl; [discriminate|].
  destruct (Ascii.eqb c sep); [discriminate|].
  destruct (split sep r); discriminate.
Qed.

Lemma split_without_sep (p : string) :
  SpecWords.contains sep p = false -> split sep p = [p].
Proof.
  induction p as [|c r IH]; simpl; [reflexivity|].
  destruct (Ascii.eqb c sep); simpl; [discriminate|].
  intros H. rewrite (IH H). reflexivity.
Qed.

Lemma split_at_first_sep (p e : string) :
  SpecWords.contains sep p = false ->
  split sep (p +:+ String sep e) = p :: split sep e.
Proof.
  induction p as [|c r IH]; simpl.
  - intros _. rewrite Ascii.eqb_refl. reflexivity.
  - destruct (Ascii.eqb c sep); simpl; [discriminate|].
    intros H. rewrite (IH H). reflexivity.
Qed.

Lemma join_cons_char (j : string) (c : ascii) (p : string) (ps : list string) :
  join j (String c p :: ps) = String c (join j (p :: ps)).
Proof. destruct ps; reflexivity. Qed.

Lemma join_split (e : string) : join (String sep "") (split sep e) = e.
Proof.
  induction e as [|c r IH]; simpl; [reflexivity|].
  destruct (Ascii.eqb_spec c sep) as [->|Hne].
  - pose proof (split_not_nil r) as Hnil.
    destruct (split sep r) as [|q qs] eqn:E; [contradiction|].
    change (join (String sep "") ("" :: q :: qs))
      with (String sep (join (String sep "") (q :: qs))).
    rewrite IH. reflexivity.
  - pose proof (split_not_nil r) as Hnil.
    destruct (split sep r) as [|q qs] eqn:E; [contradiction|].
    rewrite join_cons_char, IH. reflexivity.
Qed.

End StringLemmas.

Lemma or_string_some (s : string) : or_string (Some s) "" = s.
Proof. destruct s; reflexivity. Qed.

(** [split] never has more pieces than the splitting on all white space. *)
Lemma split_space_le_fields (s : string) :
  (length (split " " s) <= length (SpecWords.fields s))%nat
  /\ (1 <= length (split " " s))%nat.
Proof.
  induction s as [|c r [IH1 IH2]]; simpl; [lia|].
  destruct (Ascii.eqb_spec c " ") as [->|Hne]; simpl; [lia|].
  destruct (split " " r) as [|q qs]; [simpl in IH2; lia|].
  destruct (is_whitespace c); simpl in *.
  - lia.
  - destruct (SpecWords.fields r); simpl in *; lia.
Qed.


(* ===================================================================== *)
(** ** MX and SOA answers                                                 *)
(* ===================================================================== *)

(** The code splits at the space character only: a tab does not separate
    the preference from the exchange. *)
Example parseMX_tabbed :
  DoH.parseMX Sample.mxTabbed = {| preference := Num 10; exchange := "" |}.
Proof. reflexivity. Qed.

Example spec_parseMX_tabbed :
  SpecWords.parseMX Sample.mxTabbed
  = {| preference := Num 10; exchange := "mail.example.com" |}.
Proof. reflexivity. Qed.

(** C5, as stated, fails: on an MX answer whose two tokens are separated by
    a tab, splitting on white space gives the exchange [mail.example.com],
    and the code gives the empty exchange. *)
Lemma C5_counterexample :
  ~ (forall data : string, DoH.parseMX data = SpecWords.parseMX data).
Proof.
  intros H. specialize (H Sample.mxTabbed).
  rewrite parseMX_tabbed, spec_parseMX_tabbed in H. discriminate H.
Qed.

(** C5, amended: for every MX answer, parsing splits the raw data at the
    space character (U+0020, no other white space): the text before the
    first space is read by parseInt as the preference, and all the text
    after the first space, with one trailing dot removed, is the exchange;
    data without a space has the empty exchange.  The preference is the
    number that parseInt makes of that text: the integer itself up to 2^53
    in magnitude, the double that the engine rounds it to beyond, NaN when
    the text starts no number.  In particular the data
    [10 mail.example.com.] gives preference 10 and exchange
    [mail.example.com]. *)
Theorem C5_parseMX (name : string) (ty ttl : Z) (p e : string) :
  SpecWords.contains " " p = false ->
  DoH.parseAnswer "MX" (mkAnswer name ty ttl (p +:+ " " +:+ e))
    = RecMX {| preference := parseInt p; exchange := strip_trailing_dot e |}
  /\ DoH.parseAnswer "MX" (mkAnswer name ty ttl p)
    = RecMX {| preference := parseInt p; exchange := "" |}
  /\ DoH.parseAnswer "MX" (mkAnswer name ty ttl Sample.mxData)
    = RecMX {| preference := Num 10; exchange := "mail.example.com" |}.
Proof.
  intros Hp. split; [|split].
  - cbn [DoH.parseAnswer String.eqb Ascii.eqb Bool.eqb a_data]. f_equal.
    unfold DoH.parseMX.
    change (p +:+ " " +:+ e) with (p +:+ String " " e).
    rewrite (split_at_first_sep " " p e Hp).
    unfold slice1. rewrite skipn_cons, drop_0, (join_split " " e).
    reflexivity.
  - cbn [DoH.parseAnswer String.eqb Ascii.eqb Bool.eqb a_data]. f_equal.
    unfold DoH.parseMX. rewrite (split_without_sep " " p Hp). reflexivity.
  - reflexivity.
Qed.

Lemma C5_parseMX_witness :
  SpecWords.contains " " "20" = false
  /\ DoH.parseAnswer "MX" (mkAnswer "example.com." 15 300 "20 mx2.example.net.")
     = RecMX {| preference := Num 20; exchange := "mx2.example.net" |}.
Proof.
  split; [reflexivity|].
  exact (proj1 (C5_parseMX "example.com." 15 300 "20" "mx2.example.net." eq_refl)).
Defined.

Lemma parseInt_nonNumeric (f : string) :
  SpecWords.nonNumeric f = true -> parseInt f = NaN.
Proof.
  destruct f as [|c r]; [reflexivity|].
  unfold SpecWords.nonNumeric, parseInt. cbn [trim_start].
  destruct (is_whitespace c); [rewrite andb_false_r; discriminate|].
  destruct (Ascii.eqb_spec c "+") as [->|Hplus]; [rewrite andb_false_r; discriminate|].
  destruct (Ascii.eqb_spec c "-") as [->|Hminus]; [rewrite andb_false_r; discriminate|].
  case_bool_decide as Hd; [discriminate|]. intros _.
  assert (Hnone : digit c = None).
  { destruct (digit c); [exfalso; apply Hd; eexists; reflexivity | reflexivity]. }
  assert (E : unsigned_int (String c r) = NaN) by (cbn; rewrite Hnone; reflexivity).
  destruct c as [[] [] [] [] [] [] [] []]; try exact E; congruence.
Qed.

Example parseSOA_tabbed :
  DoH.parseSOA Sample.soaTabbed
  = {| mname := "ns1.example.com." +:+ SpecWords.tab +:+ "admin.example.com";
       rname := "2024010101";
       serial := Num 3600; refresh := Num 600; retry := Num 604800;
       expire := Num 60; minimum := Num 0 |}.
Proof. reflexivity. Qed.

Example spec_parseSOA_tabbed :
  SpecWords.parseSOA Sample.soaTabbed
  = {| mname := "ns1.example.com"; rname := "admin.example.com";
       serial := Num 2024010101; refresh := Num 3600; retry := Num 600;
       expire := Num 604800; minimum := Num 60 |}.
Proof. reflexivity. Qed.

(** C6, as stated, fails: on SOA data whose first two fields are separated
    by a tab, the seven white-space separated fields are not what the code
    returns; it takes the first two fields together as mname and shifts the
    others by one place. *)
Lemma C6_counterexample :
  ~ (forall data : string, DoH.parseSOA data = SpecWords.parseSOA data).
Proof.
  intros H. specialize (H Sample.soaTabbed).
  rewrite parseSOA_tabbed, spec_parseSOA_tabbed in H. discriminate H.
Qed.

(** C6, amended: for every SOA answer whose raw data is seven fields
    separated by single space characters (U+0020, no other white space
    separates), parsing yields mname and rname as the first two fields with
    one trailing dot removed, and serial, refresh, retry, expire and minimum
    as parseInt of the next five fields, with 0 for a field that does not
    start a number; parseInt gives the integer itself up to 2^53 in
    magnitude and the double that the engine rounds it to beyond.  In
    particular the data of the example in the specification gives the record
    of the specification. *)
Theorem C6_parseSOA (name : string) (ty ttl : Z) (f0 f1 f2 f3 f4 f5 f6 : string) :
  Forall (fun f => SpecWords.contains " " f = false) [f0; f1; f2; f3; f4; f5; f6] ->
  DoH.parseAnswer "SOA"
    (mkAnswer name ty ttl (join " " [f0; f1; f2; f3; f4; f5; f6]))
  = RecSOA {| mname := strip_trailing_dot f0;
              rname := strip_trailing_dot f1;
              serial := or_zero (parseInt f2);
              refresh := or_zero (parseInt f3);
              retry := or_zero (parseInt f4);
              expire := or_zero (parseInt f5);
              minimum := or_zero (parseInt f6) |}
  /\ (forall f, SpecWords.nonNumeric f = true -> or_zero (parseInt f) = Num 0)
  /\ DoH.parseAnswer "SOA" (mkAnswer name ty ttl Sample.soaData)
     = RecSOA {| mname := "ns1.example.com"; rname := "admin.example.com";
                 serial := Num 2024010101; refresh := Num 3600;
                 retry := Num 600; expire := Num 604800; minimum := Num 60 |}.
Proof.
  intros H.
  repeat match goal with
         | H : Forall _ (_ :: _) |- _ => apply Forall_cons in H; destruct H as [? H]
         end.
  split; [|split].
  - cbn [DoH.parseAnswer String.eqb Ascii.eqb Bool.eqb a_data]. f_equal.
    unfold DoH.parseSOA. cbn [join].
    repeat match goal with
           | |- context [split " " (?p +:+ " " +:+ ?e)] =>
               change (p +:+ " " +:+ e) with (p +:+ String " " e);
               rewrite (split_at_first_sep " " p e) by assumption
           end.
    rewrite (split_without_sep " " f6) by assumption.
    cbn [lookup list_lookup fmap option_fmap option_map parseInt_at default].
    rewrite !or_string_some. reflexivity.
  - intros f Hf. rewrite (parseInt_nonNumeric f Hf). reflexivity.
  - reflexivity.
Qed.

Lemma C6_parseSOA_witness :
  DoH.parseAnswer "SOA"
    (mkAnswer "example.org." 6 60 "a. b.c. 7 x 5 -4 +3z")
  = RecSOA {| mname := "a"; rname := "b.c"; serial := Num 7; refresh := Num 0;
              retry := Num 5; expire := Num (-4); minimum := Num 3 |}.
Proof.
  refine (proj1 (C6_parseSOA "example.org." 6 60 "a." "b.c." "7" "x" "5" "-4" "+3z" _)).
  repeat constructor.
Defined.

Lemma missing_field (data : string) (i : nat) :
  (length (SpecWords.fields data) <= i)%nat -> split " " data !! i = None.
Proof.
  intros H. apply lookup_ge_None.
  pose proof (split_space_le_fields data) as [Hle _]. lia.
Qed.

Lemma or_zero_not_NaN (x : number) : or_zero x <> NaN.
Proof. destruct x; discriminate. Qed.

Lemma unsigned_int_NaN (s : string) :
  unsigned_int s = NaN
  <-> match s with
      | String c _ => negb (bool_decide (is_Some (digit c))) = true
      | "" => True
      end.
Proof.
  destruct s as [|c r]; cbn; [tauto|].
  destruct (digit c) as [d|].
  - split; [|rewrite bool_decide_true by (eexists; reflexivity); discriminate].
    unfold ofInteger. destruct (Z.abs (digits r d) <=? maxExact)%Z; discriminate.
  - split; [|reflexivity]. intros _.
    rewrite bool_decide_false; [reflexivity|]. intros [x Hx]. discriminate Hx.
Qed.

(** parseInt gives NaN exactly for the fields that write no integer. *)
Lemma parseInt_NaN_iff (f : string) :
  parseInt f = NaN <-> SpecWords.noInteger f = true.
Proof.
  unfold parseInt, SpecWords.noInteger.
  destruct (trim_start f) as [|c r].
  - split; reflexivity.
  - destruct (Ascii.eqb_spec c "+") as [->|Hplus].
    + cbn [orb]. rewrite unsigned_int_NaN. destruct r; [tauto | reflexivity].
    + destruct (Ascii.eqb_spec c "-") as [->|Hminus].
      * cbn [orb]. assert (E : forall x, negate x = NaN <-> x = NaN)
          by (intros [| |]; cbn; split; congruence).
        rewrite E, unsigned_int_NaN. destruct r; [tauto | reflexivity].
      * cbn [orb].
        assert (E : match String c r with
                    | String "-" r' => negate (unsigned_int r')
                    | String "+" r' => unsigned_int r'
                    | t => unsigned_int t
                    end = unsigned_int (String c r)).
        { destruct c as [[] [] [] [] [] [] [] []]; try reflexivity; congruence. }
        rewrite E, unsigned_int_NaN. reflexivity.
Qed.

(** A number that parseInt gives as exact has magnitude up to 2^53. *)
Lemma parseInt_Num_exact (f : string) (z : Z) :
  parseInt f = Num z -> Z.abs z <= maxExact.
Proof.
  assert (U : forall s z', unsigned_int s = Num z' -> Z.abs z' <= maxExact).
  { intros s z'. destruct s as [|c r]; [discriminate|]. cbn.
    destruct (digit c) as [d|]; [|discriminate]. unfold ofInteger.
    destruct (Z.abs (digits r d) <=? maxExact)%Z eqn:E; [|discriminate].
    intros [= <-]. apply Z.leb_le. exact E. }
  assert (N : forall s z', negate (unsigned_int s) = Num z' -> Z.abs z' <= maxExact).
  { intros s z'. destruct (unsigned_int s) as [|y|y] eqn:E; cbn; try discriminate.
    intros [= <-]. rewrite Z.abs_opp. exact (U s y E). }
  unfold parseInt. destruct (trim_start f) as [|c r]; [discriminate|].
  destruct c as [[] [] [] [] [] [] [] []];
    first [apply U | apply N].
Qed.

Lemma or_zero_of_NaN (o : option string) :
  o = None \/ (exists f, o = Some f /\ parseInt f = NaN) ->
  or_zero (parseInt_at o) = Num 0.
Proof.
  intros [->|(f & -> & Hf)]; [reflexivity|].
  unfold parseInt_at. cbn [from_option id]. rewrite Hf. reflexivity.
Qed.

(** C10: for every raw data string the SOA branch returns a record (the
    branch has no operation that can throw: the optional chaining guards the
    replacement on a missing element, and parseInt accepts one).  A missing
    or empty mname or rname is the empty string; each of serial, refresh,
    retry, expire and minimum is a number and never NaN, and it is 0 when its
    field is missing or is not numeric, that is, whenever parseInt reads no
    number from it: after leading white space and one optional sign it does
    not go on with a digit.  A field is missing when the split at spaces has
    no element at its index, which is the case whenever the data has too few
    white-space separated fields. *)
Theorem C10_parseSOA_total (name : string) (ty ttl : Z) (data : string) :
  exists r : SoaRecord,
    DoH.parseAnswer "SOA" (mkAnswer name ty ttl data) = RecSOA r
    /\ (split " " data !! 0%nat = None \/ split " " data !! 0%nat = Some ""
        -> mname r = "")
    /\ (split " " data !! 1%nat = None
        \/ (length (SpecWords.fields data) <= 1)%nat -> rname r = "")
    /\ (forall (k : nat) (v : number),
          SpecWords.numericFields r !! k = Some v ->
          v <> NaN
          /\ ((length (SpecWords.fields data) <= k + 2)%nat
              \/ split " " data !! (k + 2)%nat = None
              \/ (exists f, split " " data !! (k + 2)%nat = Some f
                            /\ (parseInt f = NaN
                                \/ SpecWords.noInteger f = true
                                \/ SpecWords.nonNumeric f = true)) ->
              v = Num 0))
    /\ (data = "" ->
        r = {| mname := ""; rname := ""; serial := Num 0; refresh := Num 0;
               retry := Num 0; expire := Num 0; minimum := Num 0 |}).
Proof.
  exists (DoH.parseSOA data). split; [reflexivity|].
  split; [|split; [|split]].
  - unfold DoH.parseSOA. cbn [mname]. intros [-> | ->]; reflexivity.
  - intros H. assert (E : split " " data !! 1%nat = None).
    { destruct H as [H|H]; [exact H | exact (missing_field data 1 H)]. }
    unfold DoH.parseSOA. cbn [rname]. rewrite E. reflexivity.
  - intros k v Hk.
    assert (Hv : v = or_zero (parseInt_at (split " " data !! (k + 2)%nat))
                 /\ (k < 5)%nat).
    { unfold SpecWords.numericFields, DoH.parseSOA in Hk. cbn in Hk.
      do 5 (destruct k as [|k]; [cbn in Hk; inversion Hk; split; [reflexivity | lia]|]).
      cbn in Hk. discriminate Hk. }
    destruct Hv as [-> _]. split; [apply or_zero_not_NaN|].
    intros H. apply or_zero_of_NaN.
    destruct H as [H|[H|(f & Hf & Hnan)]];
      [left; exact (missing_field data _ H) | left; exact H |].
    right. exists f. split; [exact Hf|].
    destruct Hnan as [Hn|[Hn|Hn]];
      [exact Hn | apply parseInt_NaN_iff; exact Hn
      | apply parseInt_nonNumeric; exact Hn].
  - intros ->. reflexivity.
Qed.

(** Through [parseDoHResponse]: every record of an SOA lookup is an SOA
    record, one for each answer of the requested type. *)
Lemma SOA_records (data : GoogleDnsResponse) (typeNum : option Z)
    (dnssecValidate : bool) :
  Forall (fun r => exists soa, r = RecSOA soa)
    (records (DoH.parseDoHResponse data "SOA" typeNum dnssecValidate))
  /\ length (records (DoH.parseDoHResponse data "SOA" typeNum dnssecValidate))
     = length (filter (fun a => Some (a_type a) = typeNum)
                 (default [] (Answer data))).
Proof.
  unfold DoH.parseDoHResponse. destruct (Answer data) as [answer|]; cbn.
  - split; [|apply length_fmap].
    apply Forall_fmap, Forall_forall. intros a _. eexists. reflexivity.
  - split; [constructor | reflexivity].
Qed.

(** A data string with only the two names: the five numbers are 0. *)
Example parseSOA_two_fields :
  DoH.parseSOA "ns1.example.com. admin.example.com."
  = {| mname := "ns1.example.com"; rname := "admin.example.com";
       serial := Num 0; refresh := Num 0; retry := Num 0; expire := Num 0;
       minimum := Num 0 |}.
Proof. reflexivity. Qed.

(* ===================================================================== *)
(** ** The adapters                                                       *)
(* ===================================================================== *)

(** Case analysis on membership in a list that is written out. *)
Ltac list_cases H tac :=
  repeat (apply elem_of_cons in H; destruct H as [H|H]; [tac H|]);
  apply elem_of_nil in H; try contradiction.

Lemma registry_is_validTypes :
  SpecWords.registry = DoH.validTypes /\ SpecWords.registry = System.validTypes
  /\ SpecWords.registry = Island.ValidRecordTypes.
Proof. repeat split. Qed.

Lemma registry_cases (P : string -> Prop) :
  P "A" -> P "AAAA" -> P "CNAME" -> P "MX" -> P "NS" -> P "TXT" -> P "SOA" ->
  P "PTR" -> forall t, t ∈ SpecWords.registry -> P t.
Proof.
  intros ? ? ? ? ? ? ? ? t Ht. unfold SpecWords.registry in Ht.
  list_cases Ht ltac:(fun E => rewrite E; assumption).
Qed.

Lemma registry_nonempty (t : string) : t ∈ SpecWords.registry -> t <> "".
Proof. revert t. apply registry_cases; discriminate. Qed.

(** Every registry type has a numeric code. *)
Lemma registry_has_code (t : string) :
  t ∈ SpecWords.registry -> is_Some (DoH.DNS_TYPE_MAP !! t).
Proof. revert t. apply registry_cases; eexists; reflexivity. Qed.

(** The five own properties of [resolvers]. *)
Lemma resolvers_cases (P : string -> DoH.ResolveFn -> Prop) :
  P "google" DoH.resolveWithGoogleDoH ->
  P "cloudflare" (DoH.resolveWithCloudflareDoH DoH.cloudflareEndpoint) ->
  P "cloudflare-security" DoH.resolveWithCloudflareSecurityDoH ->
  P "cloudflare-family" DoH.resolveWithCloudflareFamilyDoH ->
  P "quad9" DoH.resolveWithQuad9DoH ->
  forall name f, DoH.resolvers !! name = Some f -> P name f.
Proof.
  intros ? ? ? ? ? name f H.
  apply elem_of_list_to_map_2 in H.
  list_cases H ltac:(fun E => inversion E; subst; assumption).
Qed.

Lemma resolvers_known (name : string) :
  name ∉ SpecWords.knownResolvers -> DoH.resolvers !! name = None.
Proof.
  intros H. apply not_elem_of_list_to_map_1. exact H.
Qed.

(** Every adapter fetches one URL and reads the response in the same way. *)
Lemma adapter_reads_response (env : Env) (name : string) (f : DoH.ResolveFn)
    (domain type : string) (dnssecValidate : bool) :
  DoH.resolvers !! name = Some f ->
  type ∈ SpecWords.registry ->
  exists provider req,
    f env domain type dnssecValidate
    = DoH.readResponse provider (fetch env req) type (DoH.DNS_TYPE_MAP !! type)
        dnssecValidate.
Proof.
  intros Hf Ht. revert name f Hf.
  apply resolvers_cases;
    try (eexists "Cloudflare", _; reflexivity).
  destruct (registry_has_code type Ht) as [n Hn].
  eexists "Google", _. unfold DoH.resolveWithGoogleDoH. rewrite Hn. reflexivity.
Qed.

Lemma statusError_table (s : Z) :
  s <> 0 -> DoH.statusError s = ErrorObject (SpecWords.statusMessage s).
Proof.
  intros Hs. unfold DoH.statusError. f_equal.
  destruct (decide (s ∈ [1; 2; 3; 4; 5])) as [Hin|Hout].
  - list_cases Hin ltac:(fun E => rewrite E; reflexivity).
  - assert (E : DoH.statusMessages !! s = None)
      by (apply not_elem_of_list_to_map_1; exact Hout).
    rewrite E. cbn [or_string].
    assert (H1 : s <> 1) by (intros ->; apply Hout; set_solver).
    assert (H2 : s <> 2) by (intros ->; apply Hout; set_solver).
    assert (H3 : s <> 3) by (intros ->; apply Hout; set_solver).
    assert (H4 : s <> 4) by (intros ->; apply Hout; set_solver).
    assert (H5 : s <> 5) by (intros ->; apply Hout; set_solver).
    destruct s as [|p|p]; [contradiction | | reflexivity].
    destruct p as [[[q|q|]|[q|q|]|]|[[q|q|]|[q|q|]|]|];
      try reflexivity; contradiction.
Qed.

Section FixedNetwork.

(** A world whose network returns the same successful HTTP response,
    carrying the body [data], whatever is fetched. *)
Variables (env : Env) (statusText : string) (data : GoogleDnsResponse).
Hypothesis network :
  forall req, fetch env req = FetchResponse true statusText (JsonData data).

Lemma adapter_on_fixed_network (name : string) (f : DoH.ResolveFn)
    (domain type : string) (dnssecValidate : bool) :
  DoH.resolvers !! name = Some f ->
  type ∈ SpecWords.registry ->
  f env domain type dnssecValidate
  = if negb (Status data =? 0)%Z then Threw (DoH.statusError (Status data))
    else Returned (DoH.parseDoHResponse data type (DoH.DNS_TYPE_MAP !! type)
                     dnssecValidate).
Proof.
  intros Hf Ht.
  destruct (adapter_reads_response env name f domain type dnssecValidate Hf Ht)
    as (provider & req & ->).
  rewrite network. reflexivity.
Qed.

End FixedNetwork.

(** The DNSSEC information of a parsed response does not depend on the
    answers. *)
Lemma parseDoHResponse_dnssec (data : GoogleDnsResponse) (type : string)
    (typeNum : option Z) (dnssecValidate : bool) :
  dnssec (DoH.parseDoHResponse data type typeNum dnssecValidate)
  = if dnssecValidate
    then Some {| validated := bool_decide (AD data = Some true); enabled := true |}
    else None.
Proof. unfold DoH.parseDoHResponse. destruct (Answer data); reflexivity. Qed.

(** C1, as stated, fails: a body with Status 0, no Answer and the AD flag
    set (an authenticated answer without data) is parsed, when validation was
    requested, into DNSSEC information whose validated is true. *)
Lemma C1_counterexample :
  ~ (forall (data : GoogleDnsResponse) (type : string) (typeNum : option Z)
            (info : DnssecInfo),
       Status data = 0 -> Answer data = None ->
       dnssec (DoH.parseDoHResponse data type typeNum true) = Some info ->
       validated info = false).
Proof.
  intros H.
  specialize (H (Sample.noAnswer 0 (Some true)) "A" (Some 1)
                {| validated := true; enabled := true |}
                eq_refl eq_refl eq_refl).
  discriminate H.
Qed.

(** C1, amended: for every DoH provider response with Status 0 and no Answer
    field, parseDoHResponse, and with it every one of the five DoH resolve
    functions, returns an empty records sequence; when dnssecValidate was
    requested the returned DNSSEC information has enabled true and validated
    equal to (AD === true), hence false exactly when the AD flag is absent or
    false; when it was not requested there is no DNSSEC information. *)
Theorem C1_no_answer (env : Env) (statusText : string)
    (data : GoogleDnsResponse) (name : string) (f : DoH.ResolveFn)
    (domain type : string) (dnssecValidate : bool) :
  Status data = 0 -> Answer data = None ->
  (forall req, fetch env req = FetchResponse true statusText (JsonData data)) ->
  DoH.resolvers !! name = Some f ->
  type ∈ SpecWords.registry ->
  let expected :=
    {| records := [];
       dnssec := if dnssecValidate
                 then Some {| validated := bool_decide (AD data = Some true);
                              enabled := true |}
                 else None |} in
  (forall typeNum,
     DoH.parseDoHResponse data type typeNum dnssecValidate = expected)
  /\ f env domain type dnssecValidate = Returned expected.
Proof.
  intros Hs Ha Hnet Hf Ht expected.
  assert (Hparse : forall typeNum,
             DoH.parseDoHResponse data type typeNum dnssecValidate = expected).
  { intros typeNum. unfold DoH.parseDoHResponse. rewrite Ha. reflexivity. }
  split; [exact Hparse|].
  rewrite (adapter_on_fixed_network env statusText data Hnet name f domain type
             dnssecValidate Hf Ht).
  rewrite Hs, Hparse. reflexivity.
Qed.

Lemma C1_no_answer_witness :
  DoH.resolveWithQuad9DoH (Sample.world (Sample.noAnswer 0 (Some false)))
    "example.com" "AAAA" true
  = Returned {| records := [];
                dnssec := Some {| validated := false; enabled := true |} |}.
Proof.
  refine (proj2 (C1_no_answer (Sample.world (Sample.noAnswer 0 (Some false)))
                   "OK" (Sample.noAnswer 0 (Some false)) "quad9"
                   DoH.resolveWithQuad9DoH "example.com" "AAAA" true
                   eq_refl eq_refl (fun _ => eq_refl) eq_refl _)).
  unfold SpecWords.registry. set_solver.
Defined.

(* ===================================================================== *)
(** ** The GET handlers                                                   *)
(* ===================================================================== *)

(** A request that passes the three checks of the DoH handler is answered
    with the completion of the selected function. *)
Lemma DoH_GET_dispatch (env : Env) (sp : URL.SearchParams) (d t : string) :
  URL.get "domain" sp = Some d -> d <> "" ->
  URL.get "type" sp = Some t -> t ∈ SpecWords.registry ->
  DoH.GET env sp
  = DoH.respond env d t (DoH.requestedResolver sp)
      (DoH.call (DoH.selectResolver env (DoH.requestedResolver sp)) env d t
         (DoH.requestedDnssec sp)).
Proof.
  intros Hd Hne Ht Hreg. unfold DoH.GET. rewrite Hd, Ht.
  destruct d as [|c d]; [contradiction|].
  pose proof (registry_nonempty t Hreg) as Hne'.
  destruct t as [|c' t]; [contradiction|].
  cbn [truthy negb from_option id].
  rewrite bool_decide_true by exact Hreg. reflexivity.
Qed.

Lemma System_GET_dispatch (env : Env) (sp : URL.SearchParams) (d t : string) :
  URL.get "domain" sp = Some d -> d <> "" ->
  URL.get "type" sp = Some t -> t ∈ SpecWords.registry ->
  System.GET env sp
  = match resolveDns env d t with
    | Returned records =>
        {| status := 200;
           body := Success {| b_domain := d; b_recordType := t;
                              b_resolver := None; b_records := Some records;
                              b_queryTime := elapsed env; b_dnssec := None |} |}
    | Threw err => {| status := 500; body := Failure (errorMessage err) |}
    end.
Proof.
  intros Hd Hne Ht Hreg. unfold System.GET. rewrite Hd, Ht.
  destruct d as [|c d]; [contradiction|].
  pose proof (registry_nonempty t Hreg) as Hne'.
  destruct t as [|c' t]; [contradiction|].
  cbn [truthy negb from_option id].
  rewrite bool_decide_true by exact Hreg. reflexivity.
Qed.

(** The function that the handler selects is always one of the table, or an
    inherited property; it is never [undefined], thanks to the fallback. *)
Lemma selectResolver_own (env : Env) (r : string) (f : DoH.ResolveFn) :
  DoH.selectResolver env r = DoH.Own f -> exists name, DoH.resolvers !! name = Some f.
Proof.
  unfold DoH.selectResolver, DoH.getProperty.
  destruct (DoH.resolvers !! r) as [g|] eqn:E.
  - intros [= <-]. exists r. exact E.
  - destruct (DoH.inheritedKey env r); [discriminate|].
    intros [= <-]. exists "google". reflexivity.
Qed.

(** C2: for every DoH provider response with a non-zero Status, each of the
    five resolve functions fails with the message of the fixed table
    (1 Format error, 2 Server failure, 3 Non-existent domain, 4 Not
    implemented, 5 Query refused), and with DNS error: followed by the code
    for a code outside the table; the GET handler answers such a failure of
    the adapter it selected with status 500 and that message as its error,
    and it passes on the message of any error an adapter throws verbatim.
    The code is an integer of magnitude up to 2^53, which the message prints
    digit by digit (the table and the verbatim passing need no bound). *)
Theorem C2_status_failure (env : Env) (statusText : string)
    (data : GoogleDnsResponse) :
  Status data <> 0 ->
  Z.abs (Status data) <= maxExact ->
  (forall req, fetch env req = FetchResponse true statusText (JsonData data)) ->
  (forall name f domain type dnssecValidate,
     DoH.resolvers !! name = Some f -> type ∈ SpecWords.registry ->
     f env domain type dnssecValidate
     = Threw (ErrorObject (SpecWords.statusMessage (Status data))))
  /\ (forall sp d t f,
        URL.get "domain" sp = Some d -> d <> "" ->
        URL.get "type" sp = Some t -> t ∈ SpecWords.registry ->
        DoH.selectResolver env (DoH.requestedResolver sp) = DoH.Own f ->
        DoH.GET env sp
        = {| status := 500;
             body := Failure (SpecWords.statusMessage (Status data)) |})
  /\ (forall (env' : Env) sp d t f m,
        URL.get "domain" sp = Some d -> d <> "" ->
        URL.get "type" sp = Some t -> t ∈ SpecWords.registry ->
        DoH.selectResolver env' (DoH.requestedResolver sp) = DoH.Own f ->
        f env' d t (DoH.requestedDnssec sp) = Threw (ErrorObject m) ->
        DoH.GET env' sp = {| status := 500; body := Failure m |}).
Proof.
  intros Hs _ Hnet.
  assert (Hadapter : forall name f domain type dnssecValidate,
             DoH.resolvers !! name = Some f -> type ∈ SpecWords.registry ->
             f env domain type dnssecValidate
             = Threw (ErrorObject (SpecWords.statusMessage (Status data)))).
  { intros name f domain type dv Hf Ht.
    rewrite (adapter_on_fixed_network env statusText data Hnet name f domain
               type dv Hf Ht).
    apply Z.eqb_neq in Hs. rewrite Hs. cbn [negb].
    rewrite statusError_table by (apply Z.eqb_neq; exact Hs). reflexivity. }
  assert (Hverbatim : forall (env' : Env) sp d t f m,
        URL.get "domain" sp = Some d -> d <> "" ->
        URL.get "type" sp = Some t -> t ∈ SpecWords.registry ->
        DoH.selectResolver env' (DoH.requestedResolver sp) = DoH.Own f ->
        f env' d t (DoH.requestedDnssec sp) = Threw (ErrorObject m) ->
        DoH.GET env' sp = {| status := 500; body := Failure m |}).
  { intros env' sp d t f m Hd Hne Ht Hreg Hsel Hthrow.
    rewrite (DoH_GET_dispatch env' sp d t Hd Hne Ht Hreg), Hsel.
    cbn [DoH.call]. rewrite Hthrow. reflexivity. }
  split; [exact Hadapter|]. split; [|exact Hverbatim].
  intros sp d t f Hd Hne Ht Hreg Hsel.
  destruct (selectResolver_own env _ f Hsel) as [name Hname].
  apply (Hverbatim env sp d t f _ Hd Hne Ht Hreg Hsel).
  apply (Hadapter name f d t _ Hname Hreg).
Qed.

Lemma C2_status_failure_witness :
  DoH.GET (Sample.world (Sample.noAnswer 3 None)) (Sample.query "MX" "quad9" "true")
  = {| status := 500; body := Failure "Non-existent domain" |}
  /\ DoH.GET (Sample.world (Sample.noAnswer 9 None)) (Sample.query "A" "system" "false")
  = {| status := 500; body := Failure "DNS error: 9" |}.
Proof.
  split.
  - refine (proj1 (proj2 (C2_status_failure
              (Sample.world (Sample.noAnswer 3 None)) "OK" (Sample.noAnswer 3 None)
              _ _ (fun _ => eq_refl)))
              (Sample.query "MX" "quad9" "true") "example.com" "MX"
              DoH.resolveWithQuad9DoH eq_refl _ eq_refl _ eq_refl);
      [discriminate | cbv; discriminate | discriminate
      | unfold SpecWords.registry; set_solver].
  - refine (proj1 (proj2 (C2_status_failure
              (Sample.world (Sample.noAnswer 9 None)) "OK" (Sample.noAnswer 9 None)
              _ _ (fun _ => eq_refl)))
              (Sample.query "A" "system" "false") "example.com" "A"
              DoH.resolveWithGoogleDoH eq_refl _ eq_refl _ eq_refl);
      [discriminate | cbv; discriminate | discriminate
      | unfold SpecWords.registry; set_solver].
Defined.

Lemma respond_status (env : Env) (d t r : string) (c : Completion DoH.Awaited) :
  status (DoH.respond env d t r c) = 200 \/ status (DoH.respond env d t r c) = 500.
Proof.
  destruct c as [v|err]; cbn [DoH.respond].
  - destruct (DoH.destructure v). left. reflexivity.
  - right. reflexivity.
Qed.

Lemma truthy_true (o : option string) :
  truthy o = true -> exists s, o = Some s /\ s <> "".
Proof.
  destruct o as [[|c s]|]; try discriminate.
  intros _. eexists. split; [reflexivity | discriminate].
Qed.

Lemma lowercase_not_in_registry (t : string) :
  t ∈ SpecWords.registry ->
  (toLowerCase t ∉ SpecWords.registry) /\ toLowerCase t <> "".
Proof.
  revert t. apply registry_cases; (split; [|discriminate]);
    unfold SpecWords.registry; cbn; intros H;
    list_cases H ltac:(fun E => discriminate E).
Qed.

(** The four facts about a handler from which [validates] follows. *)
Lemma validates_intro (GET : Env -> URL.SearchParams -> HttpResponse)
    (env : Env) (sp : URL.SearchParams) :
  (truthy (URL.get "domain" sp) = false ->
   GET env sp = {| status := 400; body := Failure "Domain is required" |}) ->
  (truthy (URL.get "domain" sp) = true -> truthy (URL.get "type" sp) = false ->
   GET env sp = {| status := 400; body := Failure "Record type is required" |}) ->
  (forall t, truthy (URL.get "domain" sp) = true -> URL.get "type" sp = Some t ->
     t <> "" -> t ∉ SpecWords.registry ->
     GET env sp
     = {| status := 400; body := Failure ("Invalid record type: " +:+ t) |}) ->
  (forall d t, URL.get "domain" sp = Some d -> d <> "" ->
     URL.get "type" sp = Some t -> t ∈ SpecWords.registry ->
     status (GET env sp) <> 400) ->
  validates GET env sp.
Proof.
  intros Hdom Htyp Hinv Hacc. unfold validates.
  assert (Hacc' : forall t, truthy (URL.get "domain" sp) = true ->
                    URL.get "type" sp = Some t -> t ∈ SpecWords.registry ->
                    status (GET env sp) <> 400).
  { intros t Hd Ht Hreg. destruct (truthy_true _ Hd) as (d & Ed & Hne).
    exact (Hacc d t Ed Hne Ht Hreg). }
  repeat split; try assumption.
  - intros H400 (Hd & t & Ht & Hreg). exact (Hacc' t Hd Ht Hreg H400).
  - intros Hbad.
    destruct (truthy (URL.get "domain" sp)) eqn:Hd; [|rewrite Hdom; reflexivity].
    destruct (truthy (URL.get "type" sp)) eqn:Ht; [|rewrite Htyp; reflexivity].
    destruct (truthy_true _ Ht) as (t & Et & Hne).
    destruct (decide (t ∈ SpecWords.registry)) as [Hin|Hout].
    + exfalso. apply Hbad. split; [reflexivity|]. exists t. split; assumption.
    + rewrite (Hinv t eq_refl Et Hne Hout). reflexivity.
Qed.

(** The three rejections are the first three branches of the handler. *)
Ltac rejections GET :=
  match goal with
  | |- forall t, _ =>
      let t := fresh "t" in let c := fresh "c" in
      intros t H1 Ht Hne Hout; unfold GET; rewrite H1, Ht;
      destruct t as [|c t]; [contradiction|];
      cbn [truthy negb from_option id];
      rewrite bool_decide_false by exact Hout; reflexivity
  | |- _ -> _ -> _ => intros H1 H2; unfold GET; rewrite H1, H2; reflexivity
  | |- _ -> _ => intros H1; unfold GET; rewrite H1; reflexivity
  end.

Lemma DoH_GET_validates (env : Env) (sp : URL.SearchParams) :
  validates DoH.GET env sp.
Proof.
  apply validates_intro; try rejections DoH.GET.
  intros d t Hd Hne Ht Hreg.
  rewrite (DoH_GET_dispatch env sp d t Hd Hne Ht Hreg).
  destruct (respond_status env d t (DoH.requestedResolver sp)
              (DoH.call (DoH.selectResolver env (DoH.requestedResolver sp))
                 env d t (DoH.requestedDnssec sp))) as [-> | ->];
    discriminate.
Qed.

Lemma System_GET_validates (env : Env) (sp : URL.SearchParams) :
  validates System.GET env sp.
Proof.
  apply validates_intro; try rejections System.GET.
  intros d t Hd Hne Ht Hreg.
  rewrite (System_GET_dispatch env sp d t Hd Hne Ht Hreg).
  destruct (resolveDns env d t); discriminate.
Qed.

(** C3: in both GET handlers the record-type check accepts exactly the eight
    registry values A, AAAA, CNAME, MX, NS, TXT, SOA and PTR: a request gets
    status 400 exactly when its domain is missing or its type is not one of
    the eight.  A type outside the registry, such as the lower-case variant
    of a registry value, is answered with 400 and Invalid record type:
    followed by that type; a missing (absent or empty) domain with 400 and
    Domain is required; a missing type with 400 and Record type is
    required. *)
Theorem C3_validation (env : Env) (sp : URL.SearchParams) :
  validates DoH.GET env sp
  /\ validates System.GET env sp
  /\ (forall t, t ∈ SpecWords.registry ->
        (toLowerCase t ∉ SpecWords.registry) /\ toLowerCase t <> "").
Proof.
  split; [apply DoH_GET_validates|].
  split; [apply System_GET_validates|].
  apply lowercase_not_in_registry.
Qed.

Example lowercase_type_rejected (env : Env) :
  DoH.GET env (Sample.query "mx" "google" "true")
  = {| status := 400; body := Failure "Invalid record type: mx" |}
  /\ System.GET env (Sample.query "mx" "google" "true")
  = {| status := 400; body := Failure "Invalid record type: mx" |}.
Proof. split; reflexivity. Qed.

(* ===================================================================== *)
(** ** Selection of the resolve function                                  *)
(* ===================================================================== *)

(** An identifier that is neither a key of the table nor the name of an
    inherited property selects the Google adapter. *)
Lemma fallback_to_google (env : Env) (r : string) :
  r ∉ SpecWords.knownResolvers -> DoH.inheritedKey env r = false ->
  DoH.selectResolver env r = DoH.Own DoH.resolveWithGoogleDoH.
Proof.
  intros Hr Hi. unfold DoH.selectResolver, DoH.getProperty.
  rewrite (resolvers_known r Hr), Hi. reflexivity.
Qed.

(** The default identifier of a request without a [resolver] parameter. *)
Lemma system_falls_back (env : Env) (sp : URL.SearchParams) :
  URL.get "resolver" sp = None ->
  DoH.requestedResolver sp = "system"
  /\ DoH.selectResolver env "system" = DoH.Own DoH.resolveWithGoogleDoH.
Proof.
  intros H. unfold DoH.requestedResolver. rewrite H. split; [reflexivity|].
  apply fallback_to_google.
  - unfold SpecWords.knownResolvers. intros Hin.
    list_cases Hin ltac:(fun E => discriminate E).
  - unfold DoH.inheritedKey. destruct (unsafe_proto env); reflexivity.
Qed.

(** Without an inherited key the selected function is one of the table. *)
Lemma selectResolver_not_inherited (env : Env) (r : string) :
  DoH.inheritedKey env r = false ->
  exists f, DoH.selectResolver env r = DoH.Own f.
Proof.
  intros Hi. unfold DoH.selectResolver, DoH.getProperty.
  destruct (DoH.resolvers !! r) as [g|]; [eexists; reflexivity|].
  rewrite Hi. eexists. reflexivity.
Qed.

(** X9: for an identifier that is neither one of the five known ones nor
    the name of an inherited property, the handler runs the Google adapter,
    fetching from the Google endpoint, and a successful body still reports
    the identifier that was requested. *)
Lemma unknown_resolver_uses_google (env : Env) (sp : URL.SearchParams)
    (d t : string) :
  URL.get "domain" sp = Some d -> d <> "" ->
  URL.get "type" sp = Some t -> t ∈ SpecWords.registry ->
  DoH.requestedResolver sp ∉ SpecWords.knownResolvers ->
  DoH.inheritedKey env (DoH.requestedResolver sp) = false ->
  DoH.GET env sp
  = DoH.respond env d t (DoH.requestedResolver sp)
      (DoH.call (DoH.Own DoH.resolveWithGoogleDoH) env d t (DoH.requestedDnssec sp))
  /\ (forall b, body (DoH.GET env sp) = Success b ->
        b_resolver b = Some (DoH.requestedResolver sp)).
Proof.
  intros Hd Hne Ht Hreg Hr Hi.
  rewrite (DoH_GET_dispatch env sp d t Hd Hne Ht Hreg).
  rewrite (fallback_to_google env _ Hr Hi). split; [reflexivity|].
  intros b. cbn [DoH.call].
  destruct (DoH.resolveWithGoogleDoH env d t (DoH.requestedDnssec sp));
    cbn; [|discriminate].
  intros [= <-]. reflexivity.
Qed.

Example system_resolver_queries_google :
  DoH.GET
    {| fetch := fun req =>
         if String.eqb (url req)
              "https://dns.google/resolve?name=example.com&type=1&cd=true"
         then FetchResponse true "OK"
                (JsonData {| Status := 0; AD := None; CD := Some true;
                             Answer := Some [mkAnswer "example.com." 1 60 "192.0.2.1"];
                             Authority := None |})
         else FetchRejected NonError;
       resolveDns := fun _ _ => Returned [];
       elapsed := 12; unsafe_proto := false;
       engine_message := fun _ => "TypeError" |}
    [("domain", "example.com"); ("type", "A")]
  = {| status := 200;
       body := Success {| b_domain := "example.com"; b_recordType := "A";
                          b_resolver := Some "system";
                          b_records := Some [RecString "192.0.2.1"];
                          b_queryTime := 12; b_dnssec := None |} |}.
Proof. reflexivity. Qed.

(** C7, at an input where the code departs from it: [constructor] is not one
    of the five known identifiers, and the property access finds the function
    that every object inherits under that name, so the fallback to the Google
    adapter does not apply.  Whatever the network would answer, no adapter
    runs: the inherited function returns a value without records, and the
    handler answers 200 with a body that has no records. *)
Theorem C7_inherited_resolver (env : Env) :
  ("constructor" ∉ SpecWords.knownResolvers)
  /\ DoH.selectResolver env "constructor" = DoH.Inherited "constructor"
  /\ DoH.selectResolver env "constructor" <> DoH.Own DoH.resolveWithGoogleDoH
  /\ DoH.GET env (Sample.query "A" "constructor" "false")
     = {| status := 200;
          body := Success {| b_domain := "example.com"; b_recordType := "A";
                             b_resolver := Some "constructor";
                             b_records := None;
                             b_queryTime := elapsed env;
                             b_dnssec := None |} |}.
Proof.
  split; [|split; [|split]].
  - unfold SpecWords.knownResolvers. intros Hin.
    list_cases Hin ltac:(fun E => discriminate E).
  - reflexivity.
  - discriminate.
  - reflexivity.
Qed.

(** The other inherited names: a call that throws is answered with 500. *)
Example inherited_valueOf (env : Env) :
  DoH.GET env (Sample.query "A" "valueOf" "false")
  = {| status := 500;
       body := Failure (engine_message env (MethodOnUndefined "valueOf")) |}.
Proof. reflexivity. Qed.

(* ===================================================================== *)
(** ** DNSSEC information in the result                                   *)
(* ===================================================================== *)

(** C4, at an input where the code departs from it: with the resolver
    identifier [toString] and DNSSEC validation requested, the handler selects
    the function every object inherits under that name instead of an adapter;
    its result has no dnssec property, and the handler answers 200 with a
    body without the dnssec field, whatever the network would answer. *)
Theorem C4_dnssec_requested_but_absent (env : Env) :
  DoH.requestedDnssec (Sample.query "A" "toString" "true") = true
  /\ DoH.GET env (Sample.query "A" "toString" "true")
     = {| status := 200;
          body := Success {| b_domain := "example.com"; b_recordType := "A";
                             b_resolver := Some "toString";
                             b_records := None;
                             b_queryTime := elapsed env;
                             b_dnssec := None |} |}.
Proof. split; reflexivity. Qed.

(* ===================================================================== *)
(** ** Shapes of the response bodies                                      *)
(* ===================================================================== *)

(** C9, as stated, fails: the successful body of the system-resolver
    endpoint has no resolver field. *)
Lemma C9_counterexample :
  ~ (forall env sp b,
       System.GET env sp = {| status := 200; body := Success b |} ->
       is_Some (b_resolver b)).
Proof.
  intros H.
  destruct (H (Sample.world (Sample.noAnswer 0 None))
              (Sample.query "A" "system" "false") _ eq_refl) as [x Hx].
  discriminate Hx.
Qed.

Lemma failure_or_accepted (GET : Env -> URL.SearchParams -> HttpResponse)
    (env : Env) (sp : URL.SearchParams) :
  validates GET env sp ->
  failureShape (GET env sp) /\ status (GET env sp) = 400
  \/ exists d t, URL.get "domain" sp = Some d /\ d <> ""
                 /\ URL.get "type" sp = Some t /\ t ∈ SpecWords.registry.
Proof.
  intros (Hdom & Htyp & Hinv & _ & _).
  destruct (truthy (URL.get "domain" sp)) eqn:Hd.
  - destruct (truthy (URL.get "type" sp)) eqn:Ht.
    + destruct (truthy_true _ Hd) as (d & Ed & Hned).
      destruct (truthy_true _ Ht) as (t & Et & Hnet).
      destruct (decide (t ∈ SpecWords.registry)) as [Hin|Hout].
      * right. exists d, t. repeat split; assumption.
      * left. rewrite (Hinv t eq_refl Et Hnet Hout).
        split; [split; [left; reflexivity | eexists; reflexivity] | reflexivity].
    + left. rewrite (Htyp eq_refl eq_refl).
      split; [split; [left; reflexivity | eexists; reflexivity] | reflexivity].
  - left. rewrite (Hdom eq_refl).
    split; [split; [left; reflexivity | eexists; reflexivity] | reflexivity].
Qed.

(** Whatever the resolver identifier is, a response of the DoH handler is a
    success with status 200 and the resolver field, or a failure with status
    400 or 500. *)
Lemma DoH_GET_status (env : Env) (sp : URL.SearchParams) :
  (status (DoH.GET env sp) = 200
   /\ exists b, body (DoH.GET env sp) = Success b
                /\ b_resolver b = Some (DoH.requestedResolver sp))
  \/ failureShape (DoH.GET env sp).
Proof.
  destruct (failure_or_accepted DoH.GET env sp (DoH_GET_validates env sp))
    as [[H _]|(d & t & Hd & Hne & Ht & Hreg)]; [right; exact H|].
  rewrite (DoH_GET_dispatch env sp d t Hd Hne Ht Hreg).
  destruct (DoH.call _ env d t (DoH.requestedDnssec sp)) as [v|th];
    cbn [DoH.respond].
  - left. destruct (DoH.destructure v) as [recs info].
    split; [reflexivity|]. eexists. split; reflexivity.
  - right. split; [right; reflexivity | eexists; reflexivity].
Qed.

Lemma System_GET_status (env : Env) (sp : URL.SearchParams) :
  systemSuccessShape sp (System.GET env sp) \/ failureShape (System.GET env sp).
Proof.
  destruct (failure_or_accepted System.GET env sp (System_GET_validates env sp))
    as [[H _]|(d & t & Hd & Hne & Ht & Hreg)]; [right; exact H|].
  rewrite (System_GET_dispatch env sp d t Hd Hne Ht Hreg).
  destruct (resolveDns env d t) as [r|th].
  - left. split; [reflexivity|]. eexists. split; [reflexivity|].
    cbn. repeat split; try assumption. eexists. reflexivity.
  - right. split; [right; reflexivity | eexists; reflexivity].
Qed.

(** C9, amended: every response of the DoH endpoint to a request whose
    resolver identifier is not the name of an inherited property is either a
    success with status 200 and the body success:true, domain, recordType,
    resolver, records, queryTime and an optional dnssec, always with the
    resolver field, or a failure; every response of the system-resolver
    endpoint, to every request, is either a success with status 200 and the
    body success:true, domain, recordType, records, queryTime, with neither a
    resolver nor a dnssec field, or a failure; for every request and both
    endpoints a failure has the body success:false, error and status 400
    (exactly for bad input) or 500, a success has status 200, and a success
    of the DoH endpoint has the resolver field. *)
Theorem C9_response_shapes (env : Env) (sp : URL.SearchParams) :
  (DoH.inheritedKey env (DoH.requestedResolver sp) = false ->
   dohSuccessShape sp (DoH.GET env sp) \/ failureShape (DoH.GET env sp))
  /\ (systemSuccessShape sp (System.GET env sp)
      \/ failureShape (System.GET env sp))
  /\ (forall r, r = DoH.GET env sp \/ r = System.GET env sp ->
        (forall e, body r = Failure e -> status r = 400 \/ status r = 500)
        /\ (forall b, body r = Success b -> status r = 200))
  /\ (forall b, body (DoH.GET env sp) = Success b ->
        b_resolver b = Some (DoH.requestedResolver sp))
  /\ validates DoH.GET env sp /\ validates System.GET env sp.
Proof.
  split; [|split; [apply System_GET_status|split; [|split;
    [|split; [apply DoH_GET_validates | apply System_GET_validates]]]]].
  - intros Hi.
    destruct (failure_or_accepted DoH.GET env sp (DoH_GET_validates env sp))
      as [[H _]|(d & t & Hd & Hne & Ht & Hreg)]; [right; exact H|].
    rewrite (DoH_GET_dispatch env sp d t Hd Hne Ht Hreg).
    destruct (selectResolver_not_inherited env _ Hi) as [f ->].
    cbn [DoH.call].
    destruct (f env d t (DoH.requestedDnssec sp)) as [r|th].
    + left. split; [reflexivity|]. eexists. split; [reflexivity|].
      cbn. repeat split; try assumption. eexists. reflexivity.
    + right. split; [right; reflexivity | eexists; reflexivity].
  - intros r [-> | ->].
    + destruct (DoH_GET_status env sp) as [(H200 & b & Hb & _)|[Hst [e He]]].
      * split; [intros e He; rewrite Hb in He; discriminate He
               | intros _ _; exact H200].
      * split; [intros _ _; exact Hst
               | intros b Hb; rewrite He in Hb; discriminate Hb].
    + destruct (System_GET_status env sp) as [(H200 & b & Hb & _)|[Hst [e He]]].
      * split; [intros e He; rewrite Hb in He; discriminate He
               | intros _ _; exact H200].
      * split; [intros _ _; exact Hst
               | intros b Hb; rewrite He in Hb; discriminate Hb].
  - intros b Hb.
    destruct (DoH_GET_status env sp) as [(_ & b' & Hb' & Hres)|[_ [e He]]].
    + rewrite Hb' in Hb. injection Hb as <-. exact Hres.
    + rewrite He in Hb. discriminate Hb.
Qed.

Lemma C9_response_shapes_witness :
  dohSuccessShape (Sample.query "A" "cloudflare" "true")
    (DoH.GET (Sample.world (Sample.noAnswer 0 None))
       (Sample.query "A" "cloudflare" "true"))
  \/ failureShape
       (DoH.GET (Sample.world (Sample.noAnswer 0 None))
          (Sample.query "A" "cloudflare" "true")).
Proof.
  exact (proj1 (C9_response_shapes (Sample.world (Sample.noAnswer 0 None))
                  (Sample.query "A" "cloudflare" "true")) eq_refl).
Defined.

(* ===================================================================== *)
(** ** The URL fragment of the island                                     *)
(* ===================================================================== *)

Lemma fragmentSafe_char (c : ascii) :
  SpecWords.fragmentSafe c = true ->
  is_whitespace c = false /\ is_line_terminator c = false
  /\ URL.is_c0_or_space c = false /\ URL.is_tab_or_newline c = false
  /\ URL.in_fragment_encode_set c = false.
Proof.
  destruct c as [[] [] [] [] [] [] [] []]; cbn; intros H;
    try discriminate H; repeat split.
Qed.

Lemma allChars_app (P : ascii -> bool) (a b : string) :
  SpecWords.allChars P (a +:+ b)
  = SpecWords.allChars P a && SpecWords.allChars P b.
Proof.
  induction a as [|c a IH]; [reflexivity|].
  change (String c a +:+ b) with (String c (a +:+ b)).
  cbn [SpecWords.allChars]. rewrite IH. apply andb_assoc.
Qed.

(** The URL parser stores a fragment of safe characters as it is. *)
Lemma parse_fragment_safe (f : string) :
  SpecWords.allChars SpecWords.fragmentSafe f = true -> URL.parse_fragment f = f.
Proof.
  intros H. unfold URL.parse_fragment.
  assert (Htrim : URL.trim_end f = f).
  { induction f as [|c r IH]; [reflexivity|].
    cbn in H. apply andb_prop in H as [Hc Hr].
    cbn [URL.trim_end]. rewrite (IH Hr).
    destruct r; [|reflexivity].
    destruct (fragmentSafe_char c Hc) as (_ & _ & -> & _). reflexivity. }
  rewrite Htrim. clear Htrim.
  induction f as [|c r IH]; [reflexivity|].
  cbn in H. apply andb_prop in H as [Hc Hr].
  destruct (fragmentSafe_char c Hc) as (_ & _ & _ & Htab & Henc).
  cbn [URL.remove_tab_newline]. rewrite Htab.
  cbn [URL.fragment_encode]. rewrite Henc.
  cbn. f_equal. exact (IH Hr).
Qed.

(** The lazy group takes a whole domain of safe characters that does not
    end with a slash: no proper prefix is followed by a tail that matches. *)
Lemma matchDomain_whole (d : string) :
  d <> "" ->
  SpecWords.allChars SpecWords.fragmentSafe d = true ->
  SpecWords.lastChar d <> Some "/"%char ->
  Island.matchDomain d = Some d.
Proof.
  induction d as [|c r IH]; [contradiction|].
  intros _ Hsafe Hlast.
  cbn in Hsafe. apply andb_prop in Hsafe as [Hc Hr].
  destruct (fragmentSafe_char c Hc) as (_ & Hlt & _).
  cbn [Island.matchDomain]. rewrite Hlt.
  destruct r as [|c' r']; [reflexivity|].
  assert (Htail : Island.matchesTail (String c' r') = false).
  { cbn in Hr. apply andb_prop in Hr as [Hc' Hr'].
    destruct (fragmentSafe_char c' Hc') as (Hws & _).
    assert (Hnot : Island.allWhitespace (String c' r') = false)
      by (cbn; rewrite Hws; reflexivity).
    destruct (Ascii.eqb_spec c' "/") as [->|Hne].
    - cbn [Island.matchesTail].
      destruct r' as [|c'' r'']; [exfalso; apply Hlast; reflexivity|].
      cbn in Hr'. apply andb_prop in Hr' as [Hc'' _].
      destruct (fragmentSafe_char c'' Hc'') as (Hws'' & _).
      cbn. rewrite Hws''. reflexivity.
    - unfold Island.matchesTail.
      destruct c' as [[] [] [] [] [] [] [] []]; try exact Hnot.
      contradiction Hne. reflexivity. }
  rewrite Htail.
  rewrite IH; [reflexivity | discriminate | exact Hr | exact Hlast].
Qed.

(** What [updateHash] and the URL parser leave in [location.hash], read
    back by the first part of the regular expression. *)
Lemma registry_type_in_hash (t d : string) :
  t ∈ SpecWords.registry ->
  SpecWords.allChars SpecWords.fragmentSafe (t +:+ "/") = true
  /\ (exists c r, t = String c r)
  /\ Island.spanLetters (t +:+ "/" +:+ d) = (t, String "/" d)
  /\ toUpperCase t = t.
Proof.
  revert t. apply registry_cases; repeat split; eexists _, _; reflexivity.
Qed.

(** C8, as stated, fails: a domain that ends with a space is not empty and
    has no slash, and the fragment written for it is read back without the
    space. *)
Lemma C8_counterexample :
  ~ (forall type domain loc,
       type ∈ SpecWords.registry -> domain <> "" ->
       SpecWords.contains "/" domain = false ->
       Island.parseHash (Island.hash (Island.updateHash type domain loc))
       = Some (type, domain)).
Proof.
  intros H.
  assert (Hin : "A" ∈ SpecWords.registry) by (unfold SpecWords.registry; set_solver).
  specialize (H "A" "example.com " Sample.location Hin).
  assert (E : Island.parseHash
                (Island.hash (Island.updateHash "A" "example.com " Sample.location))
              = Some ("A", "example.com")) by reflexivity.
  rewrite E in H. specialize (H ltac:(discriminate) eq_refl). discriminate H.
Qed.

(** A space inside the domain is percent-encoded by the URL parser, and the
    fragment is read back with the escape. *)
Example inner_space_not_restored :
  Island.parseHash
    (Island.hash (Island.updateHash "MX" "exam ple.com" Sample.location))
  = Some ("MX", "exam%20ple.com").
Proof. reflexivity. Qed.

(** C8, amended: for every record type of the registry and every non-empty
    domain that consists of characters the URL parser keeps in a fragment
    (printable ASCII other than the space, the double quote, the angle
    brackets and the backquote) and does not end with a slash, the fragment
    that updateHash writes is read back by parseHash as the same pair of
    record type and domain. *)
Theorem C8_hash_roundtrip (type domain : string) (loc : Island.Location) :
  type ∈ SpecWords.registry ->
  domain <> "" ->
  SpecWords.allChars SpecWords.fragmentSafe domain = true ->
  SpecWords.lastChar domain <> Some "/"%char ->
  Island.parseHash (Island.hash (Island.updateHash type domain loc))
  = Some (type, domain).
Proof.
  intros Hreg Hne Hsafe Hlast.
  destruct (registry_type_in_hash type domain Hreg)
    as (Htsafe & (c & r & Etype) & Hspan & Hupper).
  assert (Hhash : Island.hash (Island.updateHash type domain loc)
                  = "#" +:+ type +:+ "/" +:+ domain).
  { unfold Island.updateHash. destruct domain as [|c0 d0]; [contradiction|].
    cbn [truthy]. change ("#" +:+ type +:+ "/" +:+ String c0 d0)
      with (String "#" (type +:+ "/" +:+ String c0 d0)).
    cbn [Island.replaceState Island.hash].
    rewrite parse_fragment_safe.
    - rewrite Etype. reflexivity.
    - change (type +:+ "/" +:+ String c0 d0)
        with (type +:+ String "/" (String c0 d0)).
      rewrite allChars_app in Htsafe |- *.
      apply andb_prop in Htsafe as [Ht _]. rewrite Ht.
      cbn [andb SpecWords.allChars]. cbn in Hsafe. rewrite Hsafe. reflexivity. }
  rewrite Hhash. unfold Island.parseHash.
  assert (Hmatch : Island.matchHash ("#" +:+ type +:+ "/" +:+ domain)
                   = Some (type, domain)).
  { change ("#" +:+ type +:+ "/" +:+ domain)
      with (String "#" (type +:+ "/" +:+ domain)).
    cbn [Island.matchHash]. rewrite Hspan, Etype.
    rewrite (matchDomain_whole domain Hne Hsafe Hlast). reflexivity. }
  rewrite Hmatch, Hupper.
  rewrite bool_decide_true by exact Hreg.
  destruct domain; [contradiction | reflexivity].
Qed.

Lemma C8_hash_roundtrip_witness :
  Island.parseHash
    (Island.hash (Island.updateHash "SOA" "mail.example.com" Sample.location))
  = Some ("SOA", "mail.example.com").
Proof.
  refine (C8_hash_roundtrip "SOA" "mail.example.com" Sample.location
            _ _ eq_refl _);
    [unfold SpecWords.registry; set_solver | discriminate | discriminate].
Defined.

(* ===================================================================== *)
(** ** Further properties: the other branches of the answer callback      *)
(* ===================================================================== *)

Lemma strip_trailing_quote_app (s : string) :
  strip_trailing_quote (s +:+ String dquote "") = s.
Proof.
  induction s as [|c r IH]; [reflexivity|].
  change (String c r +:+ String dquote "") with (String c (r +:+ String dquote "")).
  cbn [strip_trailing_quote]. rewrite IH. destruct r; reflexivity.
Qed.

Lemma strip_trailing_quote_id (s : string) :
  SpecWords.lastChar s <> Some dquote -> strip_trailing_quote s = s.
Proof.
  induction s as [|c r IH]; [reflexivity|].
  intros H. destruct r as [|c' r'].
  - cbn. destruct (Ascii.eqb_spec c dquote) as [->|]; [contradiction H|]; reflexivity.
  - change (strip_trailing_quote (String c (String c' r')))
      with (String c (strip_trailing_quote (String c' r'))).
    rewrite IH; [reflexivity | exact H].
Qed.

Lemma strip_trailing_dot_app (s : string) : strip_trailing_dot (s +:+ ".") = s.
Proof.
  induction s as [|c r IH]; [reflexivity|].
  change (String c r +:+ ".") with (String c (r +:+ ".")).
  cbn [strip_trailing_dot]. rewrite IH. destruct r; reflexivity.
Qed.

Lemma strip_trailing_dot_id (s : string) :
  SpecWords.lastChar s <> Some "."%char -> strip_trailing_dot s = s.
Proof.
  induction s as [|c r IH]; [reflexivity|].
  intros H. destruct r as [|c' r'].
  - cbn. destruct (Ascii.eqb_spec c ".") as [->|]; [contradiction H|]; reflexivity.
  - change (strip_trailing_dot (String c (String c' r')))
      with (String c (strip_trailing_dot (String c' r'))).
    rewrite IH; [reflexivity | exact H].
Qed.

(** X1: a TXT answer always becomes a sequence of exactly one string.  Data
    wrapped in double quotes loses the two outer quotes and nothing else,
    whatever is between them (quotes of inner segments stay); data that
    neither starts nor ends with a quote is kept as it is. *)
Theorem X1_txt_outer_quotes (name : string) (ty ttl : Z) (s : string) :
  DoH.parseAnswer "TXT"
    (mkAnswer name ty ttl (String dquote (s +:+ String dquote ""))) = RecTXT [s]
  /\ (forall c r, c <> dquote ->
        SpecWords.lastChar (String c r) <> Some dquote ->
        DoH.parseAnswer "TXT" (mkAnswer name ty ttl (String c r))
        = RecTXT [String c r])
  /\ exists t, DoH.parseAnswer "TXT" (mkAnswer name ty ttl s) = RecTXT [t].
Proof.
  split; [|split].
  - cbn [DoH.parseAnswer String.eqb Ascii.eqb Bool.eqb a_data].
    unfold strip_outer_quotes. rewrite Ascii.eqb_refl, strip_trailing_quote_app.
    reflexivity.
  - intros c r Hc Hlast.
    cbn [DoH.parseAnswer String.eqb Ascii.eqb Bool.eqb a_data].
    unfold strip_outer_quotes.
    destruct (Ascii.eqb_spec c dquote) as [->|_]; [contradiction|].
    rewrite (strip_trailing_quote_id _ Hlast). reflexivity.
  - eexists. reflexivity.
Qed.

(** X2: for CNAME, NS and PTR answers exactly one trailing dot is removed
    and data without a trailing dot is kept; A and AAAA answers pass
    unchanged, trailing dot included. *)
Theorem X2_trailing_dot (name : string) (ty ttl : Z) (s : string) :
  (forall t, t ∈ ["CNAME"; "NS"; "PTR"] ->
     DoH.parseAnswer t (mkAnswer name ty ttl (s +:+ ".")) = RecString s
     /\ (SpecWords.lastChar s <> Some "."%char ->
         DoH.parseAnswer t (mkAnswer name ty ttl s) = RecString s))
  /\ (forall t, t ∈ ["A"; "AAAA"] ->
        DoH.parseAnswer t (mkAnswer name ty ttl s) = RecString s).
Proof.
  split; intros t Ht.
  - list_cases Ht ltac:(fun E => rewrite E;
      cbn [DoH.parseAnswer String.eqb Ascii.eqb Bool.eqb a_data orb];
      rewrite strip_trailing_dot_app; split; [reflexivity|];
      let H := fresh in intros H; rewrite (strip_trailing_dot_id s H); reflexivity).
  - list_cases Ht ltac:(fun E => rewrite E; reflexivity).
Qed.

(** X3: an answer whose numeric type is not the requested one (an entry of
    a CNAME chain, for instance) contributes nothing: the parsed result is
    the same as for the response without that answer. *)
Theorem X3_other_types_ignored (st : Z) (ad cd : option bool)
    (auth : option (list AnswerEntry)) (before after : list AnswerEntry)
    (a : AnswerEntry) (type : string) (typeNum : option Z)
    (dnssecValidate : bool) :
  Some (a_type a) <> typeNum ->
  DoH.parseDoHResponse (mkDnsResponse st ad cd (Some (before ++ a :: after)%list) auth)
    type typeNum dnssecValidate
  = DoH.parseDoHResponse (mkDnsResponse st ad cd (Some (before ++ after)%list) auth)
      type typeNum dnssecValidate.
Proof.
  intros Hne. unfold DoH.parseDoHResponse. cbn [Answer AD].
  rewrite !filter_app, filter_cons_False by exact Hne. reflexivity.
Qed.

Lemma X3_other_types_ignored_witness :
  DoH.parseDoHResponse
    (mkDnsResponse 0 None None
       (Some ([] ++ mkAnswer "www.example.com." 5 300 "host.example.net."
                 :: [mkAnswer "host.example.net." 1 60 "192.0.2.7"])%list) None)
    "A" (Some 1) false
  = DoH.parseDoHResponse
      (mkDnsResponse 0 None None
         (Some ([] ++ [mkAnswer "host.example.net." 1 60 "192.0.2.7"])%list) None)
      "A" (Some 1) false.
Proof.
  apply (X3_other_types_ignored 0 None None None []
           [mkAnswer "host.example.net." 1 60 "192.0.2.7"]
           (mkAnswer "www.example.com." 5 300 "host.example.net.")
           "A" (Some 1) false).
  discriminate.
Defined.

(** X4: in SOA data of seven space-separated fields, whatever follows the
    seventh field after another space is ignored. *)
Theorem X4_soa_extra_fields (f0 f1 f2 f3 f4 f5 f6 rest : string) :
  Forall (fun f => SpecWords.contains " " f = false) [f0; f1; f2; f3; f4; f5; f6] ->
  DoH.parseSOA (join " " [f0; f1; f2; f3; f4; f5; f6; rest])
  = DoH.parseSOA (join " " [f0; f1; f2; f3; f4; f5; f6]).
Proof.
  intros H.
  repeat match goal with
         | H : Forall _ (_ :: _) |- _ => apply Forall_cons in H; destruct H as [? H]
         end.
  unfold DoH.parseSOA. cbn [join].
  repeat match goal with
         | |- context [split " " (?p +:+ " " +:+ ?e)] =>
             change (p +:+ " " +:+ e) with (p +:+ String " " e);
             rewrite (split_at_first_sep " " p e) by assumption
         end.
  rewrite (split_without_sep " " f6) by assumption. reflexivity.
Qed.

Lemma X4_soa_extra_fields_witness :
  DoH.parseSOA "a. b. 1 2 3 4 5 trailing words"
  = DoH.parseSOA "a. b. 1 2 3 4 5".
Proof.
  refine (X4_soa_extra_fields "a." "b." "1" "2" "3" "4" "5" "trailing words" _).
  repeat constructor.
Defined.

(* ===================================================================== *)
(** ** Further properties: the adapters and the handlers                  *)
(* ===================================================================== *)

Lemma adapter_makes_request (env : Env) (name : string) (f : DoH.ResolveFn)
    (domain type : string) (dnssecValidate : bool) :
  DoH.resolvers !! name = Some f ->
  type ∈ SpecWords.registry ->
  exists code,
    DoH.DNS_TYPE_MAP !! type = Some code
    /\ f env domain type dnssecValidate
       = DoH.readResponse (Expected.provider name)
           (fetch env (Expected.request name domain type code dnssecValidate))
           type (Some code) dnssecValidate.
Proof.
  intros Hf Ht. revert name f Hf.
  apply resolvers_cases; revert type Ht; apply registry_cases;
    (eexists; split; [reflexivity|]); destruct dnssecValidate; reflexivity.
Qed.

(** X5: each of the five adapters makes one request, to its own endpoint,
    with the query [name=<domain>&type=<type>] followed by [do=true] when
    DNSSEC validation is requested and by [cd=true] when it is not, never
    both; Google is given the numeric code of the type and no Accept header,
    the other four the mnemonic type and the Accept header of DNS JSON; all
    read the response in the same way. *)
Theorem X5_adapter_request (env : Env) (name : string) (f : DoH.ResolveFn)
    (domain type : string) (dnssecValidate : bool) :
  DoH.resolvers !! name = Some f ->
  type ∈ SpecWords.registry ->
  exists code,
    DoH.DNS_TYPE_MAP !! type = Some code
    /\ f env domain type dnssecValidate
       = DoH.readResponse (Expected.provider name)
           (fetch env (Expected.request name domain type code dnssecValidate))
           type (Some code) dnssecValidate.
Proof. exact (adapter_makes_request env name f domain type dnssecValidate). Qed.

Lemma X5_adapter_request_witness :
  exists code,
    DoH.DNS_TYPE_MAP !! "AAAA" = Some code
    /\ DoH.resolveWithGoogleDoH (Sample.world (Sample.noAnswer 0 None))
         "my host.example" "AAAA" true
       = DoH.readResponse "Google"
           (fetch (Sample.world (Sample.noAnswer 0 None))
              {| url := "https://dns.google/resolve?name=my+host.example&type=28&do=true";
                 accept := None |})
           "AAAA" (Some code) true.
Proof.
  refine (X5_adapter_request (Sample.world (Sample.noAnswer 0 None)) "google"
            DoH.resolveWithGoogleDoH "my host.example" "AAAA" true eq_refl _).
  unfold SpecWords.registry. set_solver.
Defined.

(** The function that the handler selects for a key of the table. *)
Lemma selectResolver_known (env : Env) (name : string) (f : DoH.ResolveFn) :
  DoH.resolvers !! name = Some f -> DoH.selectResolver env name = DoH.Own f.
Proof.
  intros H. unfold DoH.selectResolver, DoH.getProperty. rewrite H. reflexivity.
Qed.

(** X6: when the provider answers with a status outside 2xx, the adapter
    does not read the body and fails with the status text after [Google DNS
    request failed: ] for the Google adapter and after [Cloudflare DNS
    request failed: ] for the other four, Quad9 included; the handler
    answers 500 with that message. *)
Theorem X6_http_failure (env : Env) (statusText : string) (body : JsonOutcome)
    (name : string) (f : DoH.ResolveFn) (sp : URL.SearchParams)
    (d t : string) :
  (forall req, fetch env req = FetchResponse false statusText body) ->
  DoH.resolvers !! name = Some f ->
  URL.get "domain" sp = Some d -> d <> "" ->
  URL.get "type" sp = Some t -> t ∈ SpecWords.registry ->
  DoH.requestedResolver sp = name ->
  (forall dnssecValidate,
     f env d t dnssecValidate
     = Threw (ErrorObject (Expected.provider name +:+ " DNS request failed: "
                           +:+ statusText)))
  /\ DoH.GET env sp
     = {| status := 500;
          body := Failure (Expected.provider name +:+ " DNS request failed: "
                           +:+ statusText) |}.
Proof.
  intros Hnet Hf Hd Hne Ht Hreg Hname.
  assert (Hthrow : forall dv,
             f env d t dv
             = Threw (ErrorObject (Expected.provider name +:+ " DNS request failed: "
                                   +:+ statusText))).
  { intros dv.
    destruct (adapter_makes_request env name f d t dv Hf Hreg) as (code & _ & ->).
    rewrite Hnet. reflexivity. }
  split; [exact Hthrow|].
  rewrite (DoH_GET_dispatch env sp d t Hd Hne Ht Hreg), Hname.
  rewrite (selectResolver_known env name f Hf). cbn [DoH.call].
  rewrite Hthrow. reflexivity.
Qed.

Lemma X6_http_failure_witness :
  DoH.GET Scenario.badGateway (Sample.query "NS" "quad9" "true")
  = {| status := 500;
       body := Failure "Cloudflare DNS request failed: Bad Gateway" |}.
Proof.
  refine (proj2 (X6_http_failure Scenario.badGateway "Bad Gateway" (JsonRejected NonError) "quad9"
                   DoH.resolveWithQuad9DoH (Sample.query "NS" "quad9" "true")
                   "example.com" "NS" (fun _ => eq_refl) eq_refl eq_refl _
                   eq_refl _ eq_refl));
    [discriminate | unfold SpecWords.registry; set_solver].
Defined.

(** X7: a failure below the handlers is answered with status 500 and the
    message of the thrown error, or with [DNS lookup failed] when the thrown
    value is not an error: for the DoH handler when [fetch] rejects or the
    body is not JSON (for every resolver identifier that is not an inherited
    name), for the system handler when the system resolver throws. *)
Theorem X7_failures_surface (env : Env) (sp : URL.SearchParams) (d t : string)
    (th : Thrown) :
  URL.get "domain" sp = Some d -> d <> "" ->
  URL.get "type" sp = Some t -> t ∈ SpecWords.registry ->
  ((forall req, fetch env req = FetchRejected th
                \/ exists st, fetch env req = FetchResponse true st (JsonRejected th)) ->
   DoH.inheritedKey env (DoH.requestedResolver sp) = false ->
   DoH.GET env sp = {| status := 500; body := Failure (errorMessage th) |})
  /\ (resolveDns env d t = Threw th ->
      System.GET env sp = {| status := 500; body := Failure (errorMessage th) |}).
Proof.
  intros Hd Hne Ht Hreg. split.
  - intros Hnet Hi.
    rewrite (DoH_GET_dispatch env sp d t Hd Hne Ht Hreg).
    destruct (selectResolver_not_inherited env _ Hi) as [f Hsel].
    rewrite Hsel. cbn [DoH.call].
    destruct (selectResolver_own env _ f Hsel) as [name Hname].
    destruct (adapter_reads_response env name f d t (DoH.requestedDnssec sp)
                Hname Hreg) as (provider & req & ->).
    destruct (Hnet req) as [-> | [st ->]]; reflexivity.
  - intros Hthrow.
    rewrite (System_GET_dispatch env sp d t Hd Hne Ht Hreg), Hthrow. reflexivity.
Qed.

Lemma X7_failures_surface_witness :
  DoH.GET Scenario.offline (Sample.query "TXT" "cloudflare" "false")
  = {| status := 500; body := Failure "network unreachable" |}
  /\ System.GET Scenario.offline (Sample.query "TXT" "cloudflare" "false")
     = {| status := 500; body := Failure "no record found" |}.
Proof.
  split.
  - refine (proj1 (X7_failures_surface Scenario.offline
                     (Sample.query "TXT" "cloudflare" "false") "example.com" "TXT"
                     (ErrorObject "network unreachable") eq_refl _ eq_refl _)
              (fun _ => or_introl eq_refl) eq_refl);
      [discriminate | unfold SpecWords.registry; set_solver].
  - refine (proj2 (X7_failures_surface Scenario.offline
                     (Sample.query "TXT" "cloudflare" "false") "example.com" "TXT"
                     (ErrorObject "no record found") eq_refl _ eq_refl _)
              eq_refl);
      [discriminate | unfold SpecWords.registry; set_solver].
Defined.

Lemma rejected_everywhere (GET : Env -> URL.SearchParams -> HttpResponse)
    (env env' : Env) (sp : URL.SearchParams) :
  validates GET env sp -> validates GET env' sp ->
  status (GET env sp) = 400 -> GET env' sp = GET env sp.
Proof.
  intros (Hdom & Htyp & Hinv & Hacc & _) (Hdom' & Htyp' & Hinv' & _ & _) H400.
  destruct (truthy (URL.get "domain" sp)) eqn:Hd;
    [|rewrite Hdom, Hdom'; reflexivity].
  destruct (truthy (URL.get "type" sp)) eqn:Ht;
    [|rewrite Htyp, Htyp'; reflexivity].
  destruct (truthy_true _ Ht) as (t & Et & Hne).
  destruct (decide (t ∈ SpecWords.registry)) as [Hin|Hout].
  - exfalso. exact (Hacc t eq_refl Et Hin H400).
  - rewrite (Hinv t eq_refl Et Hne Hout), (Hinv' t eq_refl Et Hne Hout).
    reflexivity.
Qed.

(** X8: the checks of the query parameters come before any access to the
    network or the system resolver: a request that either handler rejects
    with status 400 gets the same response in every world. *)
Theorem X8_rejection_before_lookup (env env' : Env) (sp : URL.SearchParams) :
  (status (DoH.GET env sp) = 400 -> DoH.GET env' sp = DoH.GET env sp)
  /\ (status (System.GET env sp) = 400 -> System.GET env' sp = System.GET env sp).
Proof.
  split.
  - apply rejected_everywhere; apply DoH_GET_validates.
  - apply rejected_everywhere; apply System_GET_validates.
Qed.

Lemma X9_unknown_resolver_witness :
  DoH.GET (Sample.world Scenario.signedAnswer) (Sample.query "A" "opendns" "true")
  = {| status := 200;
       body := Success {| b_domain := "example.com"; b_recordType := "A";
                          b_resolver := Some "opendns";
                          b_records := Some [RecString "192.0.2.7"];
                          b_queryTime := 3;
                          b_dnssec := Some {| validated := true; enabled := true |} |} |}.
Proof.
  refine (proj1 (unknown_resolver_uses_google (Sample.world Scenario.signedAnswer)
                   (Sample.query "A" "opendns" "true") "example.com" "A"
                   eq_refl _ eq_refl _ _ eq_refl));
    [discriminate | unfold SpecWords.registry; set_solver |].
  unfold SpecWords.knownResolvers. cbn. intros Hin.
  list_cases Hin ltac:(fun E => discriminate E).
Defined.

(** The adapter that the handler selects is the one of the table under
    [Expected.adapterName]. *)
Lemma selectResolver_adapterName (env : Env) (r : string) (f : DoH.ResolveFn) :
  DoH.selectResolver env r = DoH.Own f ->
  DoH.resolvers !! Expected.adapterName r = Some f.
Proof.
  unfold DoH.selectResolver, DoH.getProperty, Expected.adapterName.
  destruct (DoH.resolvers !! r) as [g|] eqn:E.
  - intros [= <-]. rewrite bool_decide_true; [exact E|].
    destruct (decide (r ∈ SpecWords.knownResolvers)) as [Hin|Hout];
      [exact Hin|].
    rewrite (resolvers_known r Hout) in E. discriminate E.
  - destruct (DoH.inheritedKey env r); [discriminate|].
    intros [= <-]. rewrite bool_decide_false; [reflexivity|].
    intros Hin. unfold SpecWords.knownResolvers in Hin.
    list_cases Hin ltac:(fun H => rewrite H in E; discriminate E).
Qed.

(** Every result that an adapter returns was parsed from the body of the
    response to the adapter's own request. *)
Lemma adapter_result_fetched (env : Env) (name : string) (f : DoH.ResolveFn)
    (d t : string) (dnssecValidate : bool) (r : DoHResult) :
  DoH.resolvers !! name = Some f -> t ∈ SpecWords.registry ->
  f env d t dnssecValidate = Returned r ->
  exists code statusText data,
    DoH.DNS_TYPE_MAP !! t = Some code
    /\ fetch env (Expected.request name d t code dnssecValidate)
       = FetchResponse true statusText (JsonData data)
    /\ r = DoH.parseDoHResponse data t (Some code) dnssecValidate.
Proof.
  intros Hf Ht Hr.
  destruct (adapter_makes_request env name f d t dnssecValidate Hf Ht)
    as (code & Hcode & E).
  rewrite E in Hr. unfold DoH.readResponse in Hr.
  destruct (fetch env (Expected.request name d t code dnssecValidate))
    as [th|ok st [th|data]] eqn:Hfetch;
    try discriminate Hr; destruct ok; try discriminate Hr.
  cbn [negb] in Hr.
  destruct (negb (Status data =? 0)%Z); [discriminate Hr|].
  injection Hr as <-. exists code, st, data. repeat split; assumption.
Qed.

(** X10: on every path where an adapter runs, the body has the dnssec field
    if and only if the dnssec parameter was exactly [true]; the field then
    has enabled true and validated equal to the AD flag of the body that
    answered the one request of that adapter: the request of X5 for the
    adapter under the requested identifier, or under [google] when the
    identifier is not a key of the table. *)
Lemma dnssec_field_of_adapter (env : Env) (sp : URL.SearchParams)
    (d t : string) (f : DoH.ResolveFn) (b : SuccessBody) :
  URL.get "domain" sp = Some d -> d <> "" ->
  URL.get "type" sp = Some t -> t ∈ SpecWords.registry ->
  DoH.selectResolver env (DoH.requestedResolver sp) = DoH.Own f ->
  body (DoH.GET env sp) = Success b ->
  (is_Some (b_dnssec b) <-> DoH.requestedDnssec sp = true)
  /\ (forall info, b_dnssec b = Some info ->
        enabled info = true
        /\ exists code statusText data,
             DoH.DNS_TYPE_MAP !! t = Some code
             /\ fetch env
                  (Expected.request
                     (Expected.adapterName (DoH.requestedResolver sp))
                     d t code true)
                = FetchResponse true statusText (JsonData data)
             /\ validated info = bool_decide (AD data = Some true)).
Proof.
  intros Hd Hne Ht Hreg Hsel Hbody.
  rewrite (DoH_GET_dispatch env sp d t Hd Hne Ht Hreg), Hsel in Hbody.
  cbn [DoH.call] in Hbody.
  destruct (f env d t (DoH.requestedDnssec sp)) as [r|th] eqn:Hr;
    [|discriminate Hbody].
  cbn in Hbody. injection Hbody as <-. cbn [b_dnssec].
  pose proof (selectResolver_adapterName env _ f Hsel) as Hname.
  destruct (adapter_result_fetched env _ f d t _ r Hname Hreg Hr)
    as (code & st & data & Hcode & Hfetch & ->).
  rewrite parseDoHResponse_dnssec.
  destruct (DoH.requestedDnssec sp).
  - split; [split; [reflexivity | eexists; reflexivity]|].
    intros info [= <-]. split; [reflexivity|].
    exists code, st, data. repeat split; assumption.
  - split; [split; [intros [x Hx]; discriminate Hx | discriminate]|].
    intros info Hinfo. discriminate Hinfo.
Qed.

Lemma X10_dnssec_field_witness :
  (is_Some (Some {| validated := true; enabled := true |})
   <-> DoH.requestedDnssec (Sample.query "A" "google" "true") = true)
  /\ (forall info, Some {| validated := true; enabled := true |} = Some info ->
        enabled info = true
        /\ exists code statusText data,
             DoH.DNS_TYPE_MAP !! "A" = Some code
             /\ fetch (Sample.world Scenario.signedAnswer)
                  (Expected.request "google" "example.com" "A" code true)
                = FetchResponse true statusText (JsonData data)
             /\ validated info = bool_decide (AD data = Some true)).
Proof.
  refine (dnssec_field_of_adapter (Sample.world Scenario.signedAnswer)
            (Sample.query "A" "google" "true") "example.com" "A"
            DoH.resolveWithGoogleDoH
            {| b_domain := "example.com"; b_recordType := "A";
               b_resolver := Some "google";
               b_records := Some [RecString "192.0.2.7"];
               b_queryTime := 3;
               b_dnssec := Some {| validated := true; enabled := true |} |}
            eq_refl _ eq_refl _ eq_refl eq_refl);
    [discriminate | unfold SpecWords.registry; set_solver].
Defined.

(* ===================================================================== *)
(** ** Further properties: reading and clearing the fragment              *)
(* ===================================================================== *)

Lemma matchesTail_cons (c : ascii) (r : string) :
  Island.matchesTail (String c r)
  = if Ascii.eqb c "/" then Island.allWhitespace r
    else Island.allWhitespace (String c r).
Proof. destruct c as [[] [] [] [] [] [] [] []]; reflexivity. Qed.

Lemma endsDomain_cons (c c' : ascii) (r : string) :
  Fragment.endsDomain (String c (String c' r)) = Fragment.endsDomain (String c' r).
Proof. reflexivity. Qed.

Lemma allWhitespace_after_domain (d tail : string) :
  Fragment.endsDomain d = true -> Island.allWhitespace (d +:+ tail) = false.
Proof.
  induction d as [|c r IH]; [discriminate|].
  intros H. change (String c r +:+ tail) with (String c (r +:+ tail)).
  cbn [Island.allWhitespace]. destruct r as [|c' r'].
  - unfold Fragment.endsDomain in H. cbn in H.
    apply andb_prop in H as [Hws _]. apply negb_true_iff in Hws.
    rewrite Hws. reflexivity.
  - rewrite endsDomain_cons in H. rewrite (IH H). apply andb_false_r.
Qed.

Lemma matchesTail_after_domain (d tail : string) :
  Fragment.endsDomain d = true -> Island.matchesTail (d +:+ tail) = false.
Proof.
  intros H. destruct d as [|c r]; [discriminate|].
  change (String c r +:+ tail) with (String c (r +:+ tail)).
  rewrite matchesTail_cons.
  destruct (Ascii.eqb_spec c "/") as [->|_].
  - destruct r as [|c' r']; [discriminate H|].
    rewrite endsDomain_cons in H. exact (allWhitespace_after_domain _ tail H).
  - exact (allWhitespace_after_domain (String c r) tail H).
Qed.

(** The lazy group stops at the end of the domain, before the tail. *)
Lemma matchDomain_app (d tail : string) :
  SpecWords.allChars Fragment.dotChar d = true ->
  Fragment.endsDomain d = true ->
  Island.matchesTail tail = true ->
  Island.matchDomain (d +:+ tail) = Some d.
Proof.
  induction d as [|c r IH]; [discriminate|].
  intros Hdot Hend Htail.
  cbn in Hdot. apply andb_prop in Hdot as [Hc Hr].
  apply negb_true_iff in Hc.
  change (String c r +:+ tail) with (String c (r +:+ tail)).
  cbn [Island.matchDomain]. rewrite Hc.
  destruct r as [|c' r'].
  - change ("" +:+ tail) with tail. rewrite Htail. reflexivity.
  - rewrite endsDomain_cons in Hend.
    rewrite (matchesTail_after_domain _ tail Hend), (IH Hr Hend Htail).
    reflexivity.
Qed.

Lemma spanLetters_app (a r : string) :
  SpecWords.allChars is_ascii_letter a = true ->
  Island.spanLetters (a +:+ String "/" r) = (a, String "/" r).
Proof.
  induction a as [|c a IH]; [reflexivity|].
  intros H. cbn in H. apply andb_prop in H as [Hc Ha].
  change (String c a +:+ String "/" r) with (String c (a +:+ String "/" r)).
  cbn [Island.spanLetters]. rewrite Hc, (IH Ha). reflexivity.
Qed.

Lemma toUpperCase_nonempty (s : string) : toUpperCase s <> "" -> s <> "".
Proof. destruct s; [intros H; exact H | discriminate]. Qed.

Lemma parseHash_accepts (type domain tail : string) :
  SpecWords.allChars is_ascii_letter type = true ->
  toUpperCase type ∈ SpecWords.registry ->
  SpecWords.allChars Fragment.dotChar domain = true ->
  Fragment.endsDomain domain = true ->
  Island.matchesTail tail = true ->
  Island.parseHash ("#" +:+ type +:+ "/" +:+ domain +:+ tail)
  = Some (toUpperCase type, domain).
Proof.
  intros Hletters Hreg Hdot Hend Htail.
  pose proof (toUpperCase_nonempty type (registry_nonempty _ Hreg)) as Hne.
  unfold Island.parseHash.
  assert (Hmatch : Island.matchHash ("#" +:+ type +:+ "/" +:+ domain +:+ tail)
                   = Some (type, domain)).
  { change ("#" +:+ type +:+ "/" +:+ domain +:+ tail)
      with (String "#" (type +:+ String "/" (domain +:+ tail))).
    cbn [Island.matchHash]. rewrite (spanLetters_app type _ Hletters).
    destruct type as [|c r]; [contradiction|].
    rewrite (matchDomain_app domain tail Hdot Hend Htail). reflexivity. }
  rewrite Hmatch. rewrite bool_decide_true by exact Hreg.
  destruct domain; [discriminate Hend | reflexivity].
Qed.

(** X11: parseHash reads every fragment of the form [#type/domain],
    optionally followed by one slash and then by white space: the type may be
    written in any mix of upper and lower case and is returned in upper
    case, provided that it then is a registry value; the domain is returned
    as written, provided it has no line terminator and ends with a character
    that is neither white space nor a slash. *)
Theorem X11_parseHash_accepts (type domain tail : string) :
  SpecWords.allChars is_ascii_letter type = true ->
  toUpperCase type ∈ SpecWords.registry ->
  SpecWords.allChars Fragment.dotChar domain = true ->
  Fragment.endsDomain domain = true ->
  Island.matchesTail tail = true ->
  Island.parseHash ("#" +:+ type +:+ "/" +:+ domain +:+ tail)
  = Some (toUpperCase type, domain).
Proof. exact (parseHash_accepts type domain tail). Qed.

Lemma X11_parseHash_accepts_witness :
  Island.parseHash "#cName/www.example.com/  " = Some ("CNAME", "www.example.com").
Proof.
  refine (X11_parseHash_accepts "cName" "www.example.com" "/  "
            eq_refl _ eq_refl eq_refl eq_refl).
  unfold SpecWords.registry. cbn. set_solver.
Defined.

Lemma matchDomain_sound (s d : string) :
  Island.matchDomain s = Some d ->
  exists tail, s = d +:+ tail /\ Island.matchesTail tail = true
               /\ d <> "" /\ SpecWords.allChars Fragment.dotChar d = true.
Proof.
  revert d. induction s as [|c r IH]; [discriminate|].
  intros d. cbn [Island.matchDomain].
  destruct (is_line_terminator c) eqn:Hc; [discriminate|].
  destruct (Island.matchesTail r) eqn:Htail.
  - intros [= <-]. exists r. repeat split; try assumption; try discriminate.
    cbn. unfold Fragment.dotChar. rewrite Hc. reflexivity.
  - destruct (Island.matchDomain r) as [d'|] eqn:Hr; [|discriminate].
    cbn. intros [= <-].
    destruct (IH d' eq_refl) as (tail & -> & Ht & _ & Hdot).
    exists tail. repeat split; try assumption; try discriminate.
    cbn. unfold Fragment.dotChar at 1. rewrite Hc, Hdot. reflexivity.
Qed.

Lemma spanLetters_sound (s a b : string) :
  Island.spanLetters s = (a, b) ->
  s = a +:+ b /\ SpecWords.allChars is_ascii_letter a = true.
Proof.
  revert a b. induction s as [|c r IH]; intros a b.
  - intros [= <- <-]. split; reflexivity.
  - cbn [Island.spanLetters]. destruct (is_ascii_letter c) eqn:Hc.
    + destruct (Island.spanLetters r) as [t rest] eqn:Hr.
      intros [= <- <-]. destruct (IH t rest eq_refl) as [-> Ht].
      split; [reflexivity|]. cbn. rewrite Hc, Ht. reflexivity.
    + intros [= <- <-]. split; reflexivity.
Qed.

Lemma matchHash_sound (h m1 m2 : string) :
  Island.matchHash h = Some (m1, m2) ->
  exists tail, h = "#" +:+ m1 +:+ "/" +:+ m2 +:+ tail
               /\ SpecWords.allChars is_ascii_letter m1 = true
               /\ Island.matchesTail tail = true
               /\ m2 <> "" /\ SpecWords.allChars Fragment.dotChar m2 = true.
Proof.
  destruct h as [|c r]; [discriminate|].
  destruct (Ascii.eqb_spec c "#") as [->|Hc];
    [|destruct c as [[] [] [] [] [] [] [] []]; try discriminate; contradiction Hc; reflexivity].
  cbn [Island.matchHash].
  destruct (Island.spanLetters r) as [t rest] eqn:Hspan.
  destruct (spanLetters_sound r t rest Hspan) as [-> Hletters].
  destruct t as [|c0 t0]; [discriminate|].
  destruct rest as [|c1 rest]; [discriminate|].
  destruct (Ascii.eqb_spec c1 "/") as [->|Hc1];
    [|destruct c1 as [[] [] [] [] [] [] [] []]; try discriminate; contradiction Hc1; reflexivity].
  destruct (Island.matchDomain rest) as [d|] eqn:Hd; [|discriminate].
  intros [= <- <-].
  destruct (matchDomain_sound rest d Hd) as (tail & -> & Htail & Hne & Hdot).
  exists tail. repeat split; assumption.
Qed.

(** X12: parseHash returns nothing but registry types and non-empty
    domains, and only for a fragment that starts with the number sign, a run
    of letters that spell the returned type up to case, and a slash, followed
    by the returned domain (without a line terminator) and a tail of an
    optional slash and white space; every other string, the empty one
    included, is ignored. *)
Theorem X12_parseHash_sound (h type domain : string) :
  Island.parseHash h = Some (type, domain) ->
  type ∈ SpecWords.registry
  /\ domain <> ""
  /\ SpecWords.allChars Fragment.dotChar domain = true
  /\ exists written tail,
       h = "#" +:+ written +:+ "/" +:+ domain +:+ tail
       /\ SpecWords.allChars is_ascii_letter written = true
       /\ toUpperCase written = type
       /\ Island.matchesTail tail = true.
Proof.
  unfold Island.parseHash.
  destruct (Island.matchHash h) as [[m1 m2]|] eqn:Hm; [|discriminate].
  destruct (matchHash_sound h m1 m2 Hm) as (tail & -> & Hletters & Htail & Hne & Hdot).
  case_bool_decide as Hreg; [|discriminate]. cbn [negb].
  destruct (truthy (Some m2)); [|discriminate]. cbn [negb].
  intros [= <- <-]. repeat split; try assumption.
  exists m1, tail. repeat split; assumption.
Qed.

Lemma X12_parseHash_sound_witness :
  "MX" ∈ SpecWords.registry
  /\ "example.org" <> ""
  /\ SpecWords.allChars Fragment.dotChar "example.org" = true
  /\ exists written tail,
       "#mx/example.org/" = "#" +:+ written +:+ "/" +:+ "example.org" +:+ tail
       /\ SpecWords.allChars is_ascii_letter written = true
       /\ toUpperCase written = "MX"
       /\ Island.matchesTail tail = true.
Proof.
  exact (X12_parseHash_sound "#mx/example.org/" "MX" "example.org" eq_refl).
Defined.

(** Replacing the URL by a plain path leaves that path alone. *)
Lemma replaceState_plainPath (p : string) (loc : Island.Location) :
  Fragment.plainPath p = true ->
  Island.replaceState p loc
  = {| Island.pathname := p; Island.search := ""; Island.hash := "" |}.
Proof.
  destruct p as [|c rest]; [discriminate|].
  destruct c as [[] [] [] [] [] [] [] []]; try discriminate.
  unfold Fragment.plainPath. intros H.
  apply andb_prop in H as [H _]. apply andb_prop in H as [H _].
  apply negb_true_iff in H.
  unfold Island.replaceState. rewrite H. reflexivity.
Qed.

(** X13: with an empty domain, updateHash replaces the URL by the bare
    path, which leaves neither a query nor a fragment, whatever the type is;
    reading the fragment back then gives nothing, and this is what
    handleClear leaves in the address bar.  This is stated for a page whose
    path is plain: it starts with a single slash, is made of letters,
    digits, slashes, hyphens, underscores, dots and tildes, and has no dot
    segment. *)
Theorem X13_empty_domain_clears (type : string) (loc : Island.Location) :
  Fragment.plainPath (Island.pathname loc) = true ->
  Island.updateHash type "" loc
  = {| Island.pathname := Island.pathname loc; Island.search := "";
       Island.hash := "" |}
  /\ Island.parseHash (Island.hash (Island.updateHash type "" loc)) = None
  /\ (forall st, snd (UI.handleClear st loc)
                  = {| Island.pathname := Island.pathname loc;
                       Island.search := ""; Island.hash := "" |}).
Proof.
  intros Hpath.
  assert (E : forall t, Island.updateHash t "" loc
              = {| Island.pathname := Island.pathname loc; Island.search := "";
                   Island.hash := "" |}).
  { intros t. unfold Island.updateHash. cbn [truthy].
    apply replaceState_plainPath. exact Hpath. }
  split; [apply E|]. split; [rewrite E; reflexivity|].
  intros st. unfold UI.handleClear. cbn [snd]. apply E.
Qed.

Lemma X13_empty_domain_clears_witness :
  Island.updateHash "TXT" ""
    {| Island.pathname := "/tools/dns"; Island.search := "?x=1";
       Island.hash := "#TXT/example.com" |}
  = {| Island.pathname := "/tools/dns"; Island.search := ""; Island.hash := "" |}.
Proof.
  exact (proj1 (X13_empty_domain_clears "TXT"
                  {| Island.pathname := "/tools/dns"; Island.search := "?x=1";
                     Island.hash := "#TXT/example.com" |} eq_refl)).
Defined.

(* ===================================================================== *)
(** ** Further properties: what the island sends and shows                *)
(* ===================================================================== *)

Lemma append_assoc_r (a b c : string) : (a +:+ b) +:+ c = a +:+ (b +:+ c).
Proof.
  induction a as [|x a IH]; [reflexivity|].
  change ((String x a +:+ b) +:+ c) with (String x ((a +:+ b) +:+ c)).
  rewrite IH. reflexivity.
Qed.

Lemma itemTexts_strings (l : list string) :
  UI.itemTexts (UI.JStr <$> l) = l.
Proof.
  unfold UI.itemTexts. induction l as [|x l IH]; [reflexivity|].
  cbn. f_equal. exact IH.
Qed.

(** The JSON form and the printed text of a number go together. *)
Lemma numberJson_text (x : number) :
  UI.numberJson x = None /\ Display.numberText x = None
  \/ exists j, UI.numberJson x = Some j
               /\ Display.numberText x = Some (UI.toText j)
               /\ (j = UI.JNull \/ exists z, j = UI.JNum z).
Proof.
  destruct x as [|z|z]; cbn.
  - right. exists UI.JNull. repeat split. left. reflexivity.
  - destruct (Z.abs z <=? maxExact)%Z; [right | left; split; reflexivity].
    exists (UI.JNum z). repeat split. right. eexists. reflexivity.
  - left. split; reflexivity.
Qed.

Ltac number_case x j :=
  let Hj := fresh "Hj" in
  let Ht := fresh "Ht" in
  let Hk := fresh "Hk" in
  destruct (numberJson_text x) as [[Hj Ht]|(j & Hj & Ht & Hk)];
  rewrite Hj, Ht; [reflexivity|]; cbn [mbind option_bind].

Lemma formatRecord_of_shape (stringify : UI.Json -> string)
    (type : string) (r : DnsRecord) :
  Display.hasShape type r = true ->
  (fun j => UI.formatRecord stringify j type) <$> UI.recordJson r
  = Display.text r.
Proof.
  destruct r as [s|[p e]|[m rn se rf rt ex mi]|segs]; cbn [Display.hasShape];
    intros H; try apply String.eqb_eq in H; subst.
  - reflexivity.
  - unfold UI.recordJson, Display.text. cbn [preference exchange].
    number_case p j. reflexivity.
  - unfold UI.recordJson, Display.text, Display.soaLines.
    cbn [mname rname serial refresh retry expire minimum].
    number_case se j1. number_case rf j2. number_case rt j3.
    number_case ex j4. number_case mi j5.
    cbn. rewrite ?append_assoc_r. reflexivity.
  - cbn [UI.recordJson fmap option_fmap option_map UI.formatRecord UI.arrayItems
         String.eqb Ascii.eqb Bool.eqb Display.text].
    rewrite itemTexts_strings. reflexivity.
Qed.

(** X14: a record of the shape that belongs to the type of the lookup, as
    both handlers produce them, with numbers of magnitude up to 2^53, is
    shown by the format of its own type and never through the JSON fallback:
    a string as it is, the strings of a TXT record put together without a
    separator, an MX record as preference, space, exchange (with [null] for
    a preference that was not a number), an SOA record as seven labelled
    lines.  (For a record with a number beyond 2^53 both sides are [None]:
    nothing is stated.) *)
Theorem X14_formatRecord_own_format (stringify : UI.Json -> string)
    (type : string) (r : DnsRecord) :
  Display.hasShape type r = true ->
  (fun j => UI.formatRecord stringify j type) <$> UI.recordJson r
  = Display.text r.
Proof. exact (formatRecord_of_shape stringify type r). Qed.

Lemma X14_formatRecord_own_format_witness :
  (fun j => UI.formatRecord (fun _ => "{}") j "MX")
    <$> UI.recordJson (RecMX {| preference := Num 10; exchange := "mail.example.com" |})
  = Some "10 mail.example.com".
Proof.
  exact (X14_formatRecord_own_format (fun _ => "{}") "MX"
           (RecMX {| preference := Num 10; exchange := "mail.example.com" |})
           eq_refl).
Defined.

(** Every record that the DoH parser makes has the shape of its type. *)
Lemma parseAnswer_hasShape (type : string) (a : AnswerEntry) :
  Display.hasShape type (DoH.parseAnswer type a) = true.
Proof.
  unfold DoH.parseAnswer.
  destruct (String.eqb type "MX") eqn:Emx; [exact Emx|].
  destruct (String.eqb type "SOA") eqn:Esoa; [exact Esoa|].
  destruct (String.eqb type "TXT") eqn:Etxt; [exact Etxt|].
  destruct (String.eqb type "CNAME" || String.eqb type "NS" || String.eqb type "PTR");
    reflexivity.
Qed.

(** X15: what the island shows for a DoH answer, parser and display put
    together: for TXT the data without its outer quotes, for CNAME, NS and
    PTR the data without one trailing dot, for A and AAAA the data itself;
    for MX the parsed preference, a space and the exchange, and for SOA the
    seven labelled lines of the parsed record, when the parsed numbers are at
    most 2^53 in magnitude ([Display.numberText] prints no others); all this
    whatever JSON.stringify would print. *)
Theorem X15_display_of_answer (stringify : UI.Json -> string)
    (name : string) (ty ttl : Z) (data : string) :
  let shown type :=
    (fun j => UI.formatRecord stringify j type)
      <$> UI.recordJson (DoH.parseAnswer type (mkAnswer name ty ttl data)) in
  shown "TXT" = Some (strip_outer_quotes data)
  /\ shown "CNAME" = Some (strip_trailing_dot data)
  /\ shown "NS" = Some (strip_trailing_dot data)
  /\ shown "PTR" = Some (strip_trailing_dot data)
  /\ shown "A" = Some data /\ shown "AAAA" = Some data
  /\ shown "MX"
     = (fun p => p +:+ " " +:+ exchange (DoH.parseMX data))
         <$> Display.numberText (preference (DoH.parseMX data))
  /\ shown "SOA" = join UI.newline <$> Display.soaLines (DoH.parseSOA data).
Proof.
  intros shown. unfold shown.
  repeat split;
    rewrite formatRecord_of_shape by apply parseAnswer_hasShape;
    reflexivity.
Qed.

Lemma append_empty_r (s : string) : s +:+ "" = s.
Proof.
  induction s as [|c s IH]; [reflexivity|].
  change (String c s +:+ "") with (String c (s +:+ "")). rewrite IH. reflexivity.
Qed.

Lemma or_string_nonempty (e : string) : or_string (Some e) "DNS lookup failed" <> "".
Proof. destruct e; discriminate. Qed.

(** X16: handleLookup leaves the form fields as they were and ends with
    exactly one of a result and an error message, and the message is never
    empty.  For a domain that is blank after trimming it sends nothing (the
    outcome is the same whatever the API would answer), reports [Please enter
    a domain name] and leaves the loading flag alone; otherwise the loading
    flag is off at the end, also when the request fails. *)
Theorem X16_handleLookup_outcome (api api' : string -> UI.ApiOutcome)
    (st : UI.State) :
  let st' := UI.handleLookup api st in
  (UI.domain st' = UI.domain st /\ UI.recordType st' = UI.recordType st
   /\ UI.resolver st' = UI.resolver st
   /\ UI.dnssecValidate st' = UI.dnssecValidate st
   /\ UI.initialLoadDone st' = UI.initialLoadDone st)
  /\ (is_Some (UI.result st') /\ UI.error st' = None
      \/ UI.result st' = None
         /\ exists e, UI.error st' = Some e /\ e <> "")
  /\ (UI.trim (UI.domain st) = "" ->
      UI.handleLookup api' st = st'
      /\ UI.error st' = Some "Please enter a domain name"
      /\ UI.isLoading st' = UI.isLoading st)
  /\ (UI.trim (UI.domain st) <> "" -> UI.isLoading st' = false).
Proof.
  intros st'. subst st'. unfold UI.handleLookup.
  destruct (UI.trim (UI.domain st)) as [|c d] eqn:Htrim; cbn [truthy negb].
  - repeat split; try reflexivity.
    + right. split; [reflexivity|]. eexists. split; [reflexivity | discriminate].
    + intros H. contradiction.
  - destruct (api (UI.lookupUrl st (String c d))) as [|[e|b]];
      (split; [repeat split|]); (split; [|split; [discriminate | reflexivity]]).
    + right. split; [reflexivity|]. eexists. split; [reflexivity | discriminate].
    + right. split; [reflexivity|]. eexists. split; [reflexivity|].
      apply or_string_nonempty.
    + left. split; [eexists; reflexivity | reflexivity].
Qed.

(** X17: the one request of handleLookup goes to [/api/dns] with the
    trimmed domain, the record type and the resolver, in this order, and with
    the parameter [dnssec], [true] or [false], only when the resolver is
    google, cloudflare, cloudflare-security or quad9; for cloudflare-family,
    system or any other resolver no dnssec parameter is sent.  The outcome
    depends on the API's answer to this request only. *)
Theorem X17_lookup_request (api api' : string -> UI.ApiOutcome) (st : UI.State) :
  let d := UI.trim (UI.domain st) in
  let request :=
    "/api/dns?domain=" +:+ URL.form_encode d +:+
    "&type=" +:+ URL.form_encode (UI.recordType st) +:+
    "&resolver=" +:+ URL.form_encode (UI.resolver st) +:+
    (if bool_decide (UI.resolver st ∈ ["google"; "cloudflare";
                                         "cloudflare-security"; "quad9"])
     then if UI.dnssecValidate st then "&dnssec=true" else "&dnssec=false"
     else "") in
  UI.lookupUrl st d = request
  /\ (api request = api' request -> UI.handleLookup api st = UI.handleLookup api' st).
Proof.
  intros d request.
  assert (Hsends : UI.sendsDnssec (UI.resolver st)
                   = bool_decide (UI.resolver st ∈ ["google"; "cloudflare";
                                                      "cloudflare-security"; "quad9"])).
  { unfold UI.sendsDnssec. case_bool_decide as Hin.
    - list_cases Hin ltac:(fun E => rewrite E; reflexivity).
    - destruct (String.eqb_spec (UI.resolver st) "google") as [E|_];
        [exfalso; apply Hin; rewrite E; set_solver|].
      destruct (String.eqb_spec (UI.resolver st) "cloudflare") as [E|_];
        [exfalso; apply Hin; rewrite E; set_solver|].
      destruct (String.eqb_spec (UI.resolver st) "cloudflare-security") as [E|_];
        [exfalso; apply Hin; rewrite E; set_solver|].
      destruct (String.eqb_spec (UI.resolver st) "quad9") as [E|_];
        [exfalso; apply Hin; rewrite E; set_solver|].
      reflexivity. }
  assert (Hurl : UI.lookupUrl st d = request).
  { subst request. unfold UI.lookupUrl. rewrite Hsends.
    destruct (bool_decide _); [destruct (UI.dnssecValidate st)|];
      rewrite ?append_empty_r; reflexivity. }
  split; [exact Hurl|].
  intros Hsame. unfold UI.handleLookup. fold d.
  destruct (negb (truthy (Some d))); [reflexivity|].
  rewrite Hurl, Hsame. reflexivity.
Qed.

Example family_resolver_sends_no_dnssec :
  UI.lookupUrl
    {| UI.domain := "  example.com "; UI.recordType := "MX";
       UI.resolver := "cloudflare-family"; UI.dnssecValidate := true;
       UI.isLoading := false; UI.result := None; UI.error := None;
       UI.initialLoadDone := true |}
    (UI.trim "  example.com ")
  = "/api/dns?domain=example.com&type=MX&resolver=cloudflare-family".
Proof. reflexivity. Qed.

(* ===================================================================== *)
(** ** Further properties: a successful lookup, end to end                *)
(* ===================================================================== *)

(** X18: when the provider answers 2xx with a body of status 0, the DoH
    handler answers 200 with the requested domain, type and resolver
    identifier, the records and the DNSSEC information that parseDoHResponse
    makes of that body for the numeric code of the type, and the measured
    time; this holds for each of the five resolvers and for every identifier
    that falls back to Google, so that the same body gives the same response
    up to the resolver field. *)
Theorem X18_successful_lookup (env : Env) (statusText : string)
    (data : GoogleDnsResponse) (sp : URL.SearchParams) (d t : string) :
  (forall req, fetch env req = FetchResponse true statusText (JsonData data)) ->
  Status data = 0 ->
  URL.get "domain" sp = Some d -> d <> "" ->
  URL.get "type" sp = Some t -> t ∈ SpecWords.registry ->
  DoH.inheritedKey env (DoH.requestedResolver sp) = false ->
  let parsed :=
    DoH.parseDoHResponse data t (DoH.DNS_TYPE_MAP !! t) (DoH.requestedDnssec sp) in
  DoH.GET env sp
  = {| status := 200;
       body := Success {| b_domain := d; b_recordType := t;
                          b_resolver := Some (DoH.requestedResolver sp);
                          b_records := Some (records parsed);
                          b_queryTime := elapsed env;
                          b_dnssec := dnssec parsed |} |}.
Proof.
  intros Hnet Hs Hd Hne Ht Hreg Hi parsed.
  rewrite (DoH_GET_dispatch env sp d t Hd Hne Ht Hreg).
  destruct (selectResolver_not_inherited env _ Hi) as [f Hsel].
  rewrite Hsel. cbn [DoH.call].
  destruct (selectResolver_own env _ f Hsel) as [name Hname].
  rewrite (adapter_on_fixed_network env statusText data Hnet name f d t _ Hname Hreg).
  rewrite Hs. reflexivity.
Qed.

Lemma X18_successful_lookup_witness :
  DoH.GET (Sample.world Scenario.signedAnswer)
    (Sample.query "A" "cloudflare-family" "yes")
  = {| status := 200;
       body := Success {| b_domain := "example.com"; b_recordType := "A";
                          b_resolver := Some "cloudflare-family";
                          b_records := Some [RecString "192.0.2.7"];
                          b_queryTime := 3;
                          b_dnssec := None |} |}.
Proof.
  refine (X18_successful_lookup (Sample.world Scenario.signedAnswer) "OK"
            Scenario.signedAnswer (Sample.query "A" "cloudflare-family" "yes")
            "example.com" "A" (fun _ => eq_refl) eq_refl eq_refl _ eq_refl _ eq_refl);
    [discriminate | unfold SpecWords.registry; set_solver].
Defined.

(* ===================================================================== *)
(** ** Further properties: the fragment and the state of the island       *)
(* ===================================================================== *)

(** X19: handleHashChange always sets the flag of the initial load and never
    touches the resolver or the DNSSEC choice.  A fragment that parseHash does
    not accept changes nothing else.  Once the flag is set, an accepted
    fragment only fills domain and type: no lookup is made (the state does not
    depend on the API) and result, error and loading flag stay. *)
Theorem X19_handleHashChange (api api' : string -> UI.ApiOutcome)
    (loc : Island.Location) (st : UI.State) :
  let st' := UI.handleHashChange api loc st in
  UI.initialLoadDone st' = true
  /\ UI.resolver st' = UI.resolver st
  /\ UI.dnssecValidate st' = UI.dnssecValidate st
  /\ (Island.parseHash (Island.hash loc) = None ->
      st' = UI.setFields st (UI.domain st) (UI.recordType st) true)
  /\ (UI.initialLoadDone st = true ->
      UI.handleHashChange api' loc st = st'
      /\ UI.result st' = UI.result st /\ UI.error st' = UI.error st
      /\ UI.isLoading st' = UI.isLoading st).
Proof.
  intros st'. subst st'. unfold UI.handleHashChange.
  destruct (Island.parseHash (Island.hash loc)) as [[type d]|].
  - destruct (UI.initialLoadDone st) eqn:Hdone; cbn [negb].
    + split; [reflexivity|]. split; [reflexivity|]. split; [reflexivity|].
      split; [discriminate|]. intros _. repeat split.
    + assert (H : forall st1, UI.initialLoadDone st1 = true ->
                  UI.initialLoadDone (UI.handleLookup api st1) = true
                  /\ UI.resolver (UI.handleLookup api st1) = UI.resolver st1
                  /\ UI.dnssecValidate (UI.handleLookup api st1)
                     = UI.dnssecValidate st1).
      { intros st1 H1. unfold UI.handleLookup.
        destruct (negb (truthy (Some (UI.trim (UI.domain st1)))));
          [repeat split; exact H1|].
        destruct (api _) as [|[e|b]]; repeat split; exact H1. }
      destruct (H (UI.setFields st d type true) eq_refl) as (H1 & H2 & H3).
      split; [exact H1|]. split; [exact H2|]. split; [exact H3|].
      split; discriminate.
  - split; [reflexivity|]. split; [reflexivity|]. split; [reflexivity|].
    split; [reflexivity|]. intros Hdone. repeat split.
Qed.

Lemma registry_letters (t : string) :
  t ∈ SpecWords.registry ->
  SpecWords.allChars is_ascii_letter t = true /\ toUpperCase t = t.
Proof. revert t. apply registry_cases; split; reflexivity. Qed.

Lemma safe_dotChar (d : string) :
  SpecWords.allChars SpecWords.fragmentSafe d = true ->
  SpecWords.allChars Fragment.dotChar d = true.
Proof.
  induction d as [|c r IH]; [reflexivity|].
  cbn. intros H. apply andb_prop in H as [Hc Hr].
  destruct (fragmentSafe_char c Hc) as (_ & Hlt & _).
  unfold Fragment.dotChar at 1. rewrite Hlt, (IH Hr). reflexivity.
Qed.

Lemma safe_endsDomain (d : string) :
  d <> "" ->
  SpecWords.allChars SpecWords.fragmentSafe d = true ->
  SpecWords.lastChar d <> Some "/"%char ->
  Fragment.endsDomain d = true.
Proof.
  induction d as [|c r IH]; [contradiction|].
  intros _ Hsafe Hlast. cbn in Hsafe. apply andb_prop in Hsafe as [Hc Hr].
  destruct r as [|c' r'].
  - unfold Fragment.endsDomain. cbn.
    destruct (fragmentSafe_char c Hc) as (Hws & _). rewrite Hws. cbn.
    destruct (Ascii.eqb_spec c "/") as [->|_]; [contradiction Hlast|]; reflexivity.
  - rewrite endsDomain_cons. apply IH; [discriminate | exact Hr | exact Hlast].
Qed.

Lemma trimEnd_safe (d : string) :
  SpecWords.allChars SpecWords.fragmentSafe d = true -> UI.trimEnd d = d.
Proof.
  induction d as [|c r IH]; [reflexivity|].
  cbn [SpecWords.allChars]. intros H. apply andb_prop in H as [Hc Hr].
  cbn [UI.trimEnd]. rewrite (IH Hr). destruct r; [|reflexivity].
  destruct (fragmentSafe_char c Hc) as (-> & _). reflexivity.
Qed.

Lemma trim_safe (d : string) :
  SpecWords.allChars SpecWords.fragmentSafe d = true -> UI.trim d = d.
Proof.
  intros H. unfold UI.trim.
  assert (E : trim_start d = d).
  { destruct d as [|c r]; [reflexivity|].
    cbn in H. apply andb_prop in H as [Hc _].
    destruct (fragmentSafe_char c Hc) as (Hws & _). cbn. rewrite Hws. reflexivity. }
  rewrite E. apply trimEnd_safe. exact H.
Qed.

Lemma updateHash_safe (type domain : string) (loc : Island.Location) :
  type ∈ SpecWords.registry -> domain <> "" ->
  SpecWords.allChars SpecWords.fragmentSafe domain = true ->
  Island.hash (Island.updateHash type domain loc)
  = "#" +:+ type +:+ "/" +:+ domain.
Proof.
  intros Hreg Hne Hsafe.
  destruct (registry_type_in_hash type domain Hreg)
    as (Htsafe & (c & r & Etype) & _ & _).
  unfold Island.updateHash. destruct domain as [|c0 d0]; [contradiction|].
  cbn [truthy]. change ("#" +:+ type +:+ "/" +:+ String c0 d0)
    with (String "#" (type +:+ "/" +:+ String c0 d0)).
  cbn [Island.replaceState Island.hash].
  rewrite parse_fragment_safe.
  - rewrite Etype. reflexivity.
  - change (type +:+ "/" +:+ String c0 d0)
      with (type +:+ String "/" (String c0 d0)).
    rewrite allChars_app in Htsafe |- *.
    apply andb_prop in Htsafe as [Ht _]. rewrite Ht.
    cbn [andb SpecWords.allChars]. cbn in Hsafe. rewrite Hsafe. reflexivity.
Qed.

Lemma handleLookup_fields (api : string -> UI.ApiOutcome) (st : UI.State) :
  UI.domain (UI.handleLookup api st) = UI.domain st
  /\ UI.recordType (UI.handleLookup api st) = UI.recordType st
  /\ UI.initialLoadDone (UI.handleLookup api st) = UI.initialLoadDone st.
Proof.
  unfold UI.handleLookup.
  destruct (negb (truthy (Some (UI.trim (UI.domain st))))); [repeat split|].
  destruct (api _) as [|[e|b]]; repeat split.
Qed.

(** X20: a canonical shared link is stable.  When the fragment is
    [#TYPE/domain] for a registry type and a non-empty domain of characters
    that a fragment keeps, not ending with a slash, then handleHashChange
    (on the first load or later) puts exactly that type and that domain into
    the form, and the effect that writes the form back leaves the fragment as
    it was. *)
Theorem X20_shared_link_stable (api : string -> UI.ApiOutcome)
    (loc : Island.Location) (st : UI.State) (type domain : string) :
  type ∈ SpecWords.registry ->
  domain <> "" ->
  SpecWords.allChars SpecWords.fragmentSafe domain = true ->
  SpecWords.lastChar domain <> Some "/"%char ->
  Island.hash loc = "#" +:+ type +:+ "/" +:+ domain ->
  let st' := UI.handleHashChange api loc st in
  UI.domain st' = domain /\ UI.recordType st' = type
  /\ Island.hash (UI.syncHash st' loc) = Island.hash loc.
Proof.
  intros Hreg Hne Hsafe Hlast Hhash st'.
  destruct (registry_letters type Hreg) as [Hletters Hupper].
  assert (Hparse : Island.parseHash (Island.hash loc) = Some (type, domain)).
  { pose proof (parseHash_accepts type domain "" Hletters) as H.
    rewrite Hupper, append_empty_r in H. rewrite Hhash.
    apply H; [exact Hreg | apply safe_dotChar; exact Hsafe
             | apply safe_endsDomain; assumption | reflexivity]. }
  assert (Hfields : UI.domain st' = domain /\ UI.recordType st' = type
                    /\ UI.initialLoadDone st' = true).
  { subst st'. unfold UI.handleHashChange. rewrite Hparse.
    destruct (UI.initialLoadDone st) eqn:Hdone; cbn [negb].
    - repeat split.
    - destruct (handleLookup_fields api (UI.setFields st domain type true))
        as (-> & -> & ->). repeat split. }
  destruct Hfields as (Hd & Ht & Hdone).
  split; [exact Hd|]. split; [exact Ht|].
  unfold UI.syncHash. rewrite Hdone, Hd, Ht, (trim_safe domain Hsafe).
  rewrite (updateHash_safe type domain loc Hreg Hne Hsafe). symmetry. exact Hhash.
Qed.

Lemma X20_shared_link_stable_witness :
  Island.hash
    (UI.syncHash
       (UI.handleHashChange (fun _ => UI.ApiRejected)
          {| Island.pathname := "/"; Island.search := "";
             Island.hash := "#NS/example.net" |}
          {| UI.domain := ""; UI.recordType := "A"; UI.resolver := "google";
             UI.dnssecValidate := true; UI.isLoading := false;
             UI.result := None; UI.error := None; UI.initialLoadDone := false |})
       {| Island.pathname := "/"; Island.search := "";
          Island.hash := "#NS/example.net" |})
  = "#NS/example.net".
Proof.
  refine (proj2 (proj2 (X20_shared_link_stable (fun _ => UI.ApiRejected)
            {| Island.pathname := "/"; Island.search := "";
               Island.hash := "#NS/example.net" |}
            {| UI.domain := ""; UI.recordType := "A"; UI.resolver := "google";
               UI.dnssecValidate := true; UI.isLoading := false;
               UI.result := None; UI.error := None; UI.initialLoadDone := false |}
            "NS" "example.net" _ _ eq_refl _ eq_refl)));
    [unfold SpecWords.registry; set_solver | discriminate | discriminate].
Defined.
